(** * Estimation and sampling core of the statistical web application

    A shallow embedding of
      - [src/utils/statistics.ts]    (module [Statistics]),
      - [src/utils/distributions.ts] (module [Distributions]),
      - the estimator that [App.tsx] declares for itself (module [App];
        its text follows [start-dev.ps1] in the sources),
      - the sampler that [components/DistributionGenerator.tsx] declares
        for itself (module [DistributionGenerator]),
    over ECMAScript numbers.  A number is an IEEE-754 binary64 value and
    is represented by a primitive float, so that every arithmetic
    operation, comparison and square root below is the one the program
    performs; [Math.log], [Math.exp], [Math.cos] and [Math.pow], which the
    language leaves to the platform, are parameters ([JS.MathLib]).  Loop
    counters, sample sizes and trial counts are numbers as well, compared
    and incremented as the program does; a loop whose number of rounds the
    program does not bound is driven by fuel, and [None] stands for a run
    that has not ended. *)

From Stdlib Require Import Floats ZArith List Bool String Lia.
From Stdlib Require Import Permutation Sorted.
Import ListNotations.

Set Implicit Arguments.
Set Warnings "-inexact-float".

(* ================================================================== *)
(** * ECMAScript numbers and the parts of [Math] the program calls     *)
(* ================================================================== *)

Module JS.

Open Scope float_scope.

Definition number := float.

(** How a call ends.  [Throw name] is an exception of the class [name]. *)
Inductive completion (A : Type) : Type :=
| Normal (value : A)
| Throw (name : string).
Arguments Throw {A} name.

Definition throws {A : Type} (c : completion A) (name : string) : Prop :=
  c = Throw name.

(** A value that is a number, or is [undefined] or [null] ([None]). *)
Definition value := option number.

(** [ToNumber]: [undefined] read as a number is NaN. *)
Definition ToNumber (v : value) : number :=
  match v with Some x => x | None => nan end.

(** The number whose value is the integer [z] (exact below 2^53). *)
Definition of_Z (z : Z) : number :=
  SF2Prim (binary_normalize prec emax z 0 false).

Definition Number_isFinite (x : number) : bool :=
  match Prim2SF x with
  | S754_zero _ | S754_finite _ _ _ => true
  | _ => false
  end.

Definition sign_bit (x : number) : bool :=
  match Prim2SF x with
  | S754_zero s | S754_infinity s | S754_finite s _ _ => s
  | S754_nan => false
  end.

(** [x > y], [x >= y] of the language, false as soon as one side is NaN. *)
Definition gtb (x y : number) : bool := y <? x.
Definition geb (x y : number) : bool := y <=? x.

Definition Math_PI : number := 3.141592653589793.
Definition Math_sqrt (x : number) : number := PrimFloat.sqrt x.

(** [Math.floor]. A finite [x] is [(-1)^s * m * 2^e]. *)
Definition Math_floor (x : number) : number :=
  match Prim2SF x with
  | S754_finite s m e =>
      if (0 <=? e)%Z then x
      else of_Z (Z.shiftr (cond_Zopp s (Zpos m)) (- e))
  | _ => x
  end.

(** [Math.ceil]; a negative argument above -1 gives -0. *)
Definition Math_ceil (x : number) : number :=
  match Prim2SF x with
  | S754_finite s m e =>
      if (0 <=? e)%Z then x
      else
        let q := (- Z.shiftr (- cond_Zopp s (Zpos m)) (- e))%Z in
        if (q =? 0)%Z && s then -0 else of_Z q
  | _ => x
  end.

(** [Math.round]: nearest integer, ties towards +Infinity; an argument in
    [-0.5, 0) gives -0. *)
Definition Math_round (x : number) : number :=
  match Prim2SF x with
  | S754_finite s m e =>
      if (0 <=? e)%Z then x
      else
        let k := (- e)%Z in
        let q := Z.shiftr (2 * cond_Zopp s (Zpos m) + 2 ^ k) (k + 1) in
        if (q =? 0)%Z && s then -0 else of_Z q
  | _ => x
  end.

Definition Number_isInteger (x : number) : bool :=
  match Prim2SF x with
  | S754_zero _ => true
  | S754_finite _ m e =>
      (0 <=? e)%Z || (Z.land (Zpos m) (2 ^ (- e) - 1) =? 0)%Z
  | _ => false
  end.

(** The integer an integral number denotes ([None] otherwise). *)
Definition to_Z (x : number) : option Z :=
  match Prim2SF x with
  | S754_zero _ => Some 0%Z
  | S754_finite s m e =>
      if (0 <=? e)%Z then Some (cond_Zopp s (Zpos m) * 2 ^ e)%Z
      else if (Z.land (Zpos m) (2 ^ (- e) - 1) =? 0)%Z
           then Some (Z.shiftr (cond_Zopp s (Zpos m)) (- e))
           else None
  | _ => None
  end.

(** [a[i]] for a number [i]: the element when [i] is an index of [a],
    [undefined] otherwise. *)
Definition get (a : list number) (i : number) : value :=
  match to_Z i with
  | Some z => if (z <? 0)%Z then None else nth_error a (Z.to_nat z)
  | None => None
  end.

(** Binary [Math.min] and [Math.max]: NaN is contagious, -0 is below +0. *)
Definition min2 (a b : number) : number :=
  if is_nan a || is_nan b then nan
  else if a <? b then a
  else if b <? a then b
  else if sign_bit a then a else b.

Definition max2 (a b : number) : number :=
  if is_nan a || is_nan b then nan
  else if b <? a then a
  else if a <? b then b
  else if sign_bit a then b else a.

(** [Math.min(...xs)] and [Math.max(...xs)]; on no argument they are
    +Infinity and -Infinity.  The code calls them with a spread array, and
    an engine bounds the number of arguments of a call by the size of its
    stack: spreading a longer array raises RangeError, which these folds
    do not have.  They are the calls on arrays of at most [spread_limit]
    elements, a length below the bound of the engines in use; what is
    stated of a spread call for every array carries that bound. *)
Definition Math_min (xs : list number) : number := fold_left min2 xs infinity.
Definition Math_max (xs : list number) : number := fold_left max2 xs neg_infinity.

Definition spread_limit : nat := Z.to_nat 10000.

(** The remainder operator [%]: exact, with the sign of the dividend. *)
Definition rem (x y : number) : number :=
  match Prim2SF x, Prim2SF y with
  | S754_nan, _ | _, S754_nan => nan
  | S754_infinity _, _ => nan
  | _, S754_zero _ => nan
  | _, S754_infinity _ => x
  | S754_zero _, _ => x
  | S754_finite sx mx ex, S754_finite _ my ey =>
      let e := Z.min ex ey in
      let r := ((Zpos mx * 2 ^ (ex - e)) mod (Zpos my * 2 ^ (ey - e)))%Z in
      if (r =? 0)%Z then (if sx then -0 else 0)
      else SF2Prim (binary_normalize prec emax (cond_Zopp sx r) e false)
  end.

(** [Array.prototype.sort] with the comparator [(a, b) => a - b]: a stable
    insertion sort.  The language requires a stable sort, and every
    stable sort agrees with this one when the comparator is consistent,
    that is when no element is NaN.  With a NaN among the elements the
    order is left to the engine (on [3, NaN, 1] an engine may leave the
    array as it is, where this sort gives [1, 3, NaN]): what is stated of
    the sorted array for every sample carries the hypothesis that no
    element is NaN. *)
Fixpoint sort_insert (x : number) (l : list number) : list number :=
  match l with
  | [] => [x]
  | y :: l' => if gtb (y - x) 0 then x :: l else y :: sort_insert x l'
  end.

Definition sort (l : list number) : list number :=
  fold_left (fun acc x => sort_insert x acc) l [].

(** The transcendental functions of [Math], which the language leaves to
    the platform ("implementation-approximated"). *)
Record MathLib : Type := {
  Math_log : number -> number;
  Math_exp : number -> number;
  Math_cos : number -> number;
  Math_pow : number -> number -> number
}.

(** On the arguments [xs] the platform's [Math.pow(x, 2)] is the square
    [x * x]; every platform meets this where the square is a binary64
    number. *)
Definition squares_exactly (M : MathLib) (xs : list number) : Prop :=
  Forall (fun x => Math_pow M x 2 = x * x) xs.

(** [|x - y| < eps]. *)
Definition close_to (x y eps : number) : bool := abs (x - y) <? eps.

End JS.

(* ================================================================== *)
(** * [src/utils/statistics.ts]                                        *)
(* ================================================================== *)

Module Statistics.

Import JS.
Open Scope string_scope.
Open Scope float_scope.

Local Notation "a == b" := (String.eqb a b) (at level 70, no associativity).

Record Quartiles : Type := {
  q1 : value;
  q2 : value;
  q3 : value
}.

Record SummaryStatistics : Type := {
  mean : number;
  median : value;
  mode : value;
  variance : number;
  standardDeviation : number;
  min : value;
  max : value;
  range : number;
  quartiles : Quartiles;
  interquartileRange : number;
  skewness : number;
  kurtosis : number
}.

Inductive Method : Type := MLE | MoM.

(** [Record<string, number>]: the properties in the order they were
    written. *)
Definition Params := list (string * number).

Fixpoint lookup (key : string) (ps : Params) : value :=
  match ps with
  | [] => None
  | (k, v) :: ps' => if String.eqb key k then Some v else lookup key ps'
  end.

Record EstimationResult : Type := {
  method : Method;
  estimatedParams : Params;
  logLikelihood : value
}.

(** [data.length] as a number. *)
Definition length_of (data : list number) : number :=
  of_Z (Z.of_nat (List.length data)).

(** [data.reduce((sum, x) => sum + f(x), 0)]. *)
Definition reduce_sum (f : number -> number) (data : list number) : number :=
  fold_left (fun sum x => sum + f x) data 0.

(** ** The frequency table of [calculateSummaryStats]

    A [Record<number, number>] keyed by numbers: a number is turned into
    its property name, which identifies -0 with 0 and NaN with itself. *)
Definition property_key (x : number) : number :=
  if x =? 0 then 0 else x.

Definition same_key (a b : number) : bool :=
  (a =? b) || (is_nan a && is_nan b).

Definition Frequency := list (number * number).

Fixpoint freq_get (key : number) (fr : Frequency) : value :=
  match fr with
  | [] => None
  | (k, v) :: fr' => if same_key key k then Some v else freq_get key fr'
  end.

Fixpoint freq_set (key v : number) (fr : Frequency) : Frequency :=
  match fr with
  | [] => [(key, v)]
  | (k, w) :: fr' =>
      if same_key key k then (k, v) :: fr' else (k, w) :: freq_set key v fr'
  end.

(** [frequency[x] || 0]: an absent, zero or NaN count reads as 0. *)
Definition freq_count (key : number) (fr : Frequency) : number :=
  match freq_get key fr with
  | Some v => if (v =? 0) || is_nan v then 0 else v
  | None => 0
  end.

(** Integer-like property names (array indices, at most 2^32 - 2) are
    enumerated first, in ascending order; the others follow in the order
    of their creation. *)
Definition is_array_index (k : number) : bool :=
  match to_Z k with
  | Some z => (0 <=? z)%Z && (z <=? 4294967294)%Z
  | None => false
  end.

Definition Object_keys (fr : Frequency) : list number :=
  let keys := map fst fr in
  JS.sort (filter is_array_index keys)
    ++ filter (fun k => negb (is_array_index k)) keys.

Definition Object_values (fr : Frequency) : list number :=
  map (fun k => ToNumber (freq_get k fr)) (Object_keys fr).

Section WithMath.

Variable M : MathLib.

(** Calculate percentile using linear interpolation *)
Definition calculatePercentile (sorted : list number) (percentile : number)
  : value :=
  let n := length_of sorted in
  let index := (percentile / 100) * (n - 1) in
  if Number_isInteger index then get sorted index
  else
    let lower := Math_floor index in
    let upper := Math_ceil index in
    let weight := index - lower in
    Some (ToNumber (get sorted lower) * (1 - weight)
          + ToNumber (get sorted upper) * weight).

Definition calculateSkewness (data : list number) (mean stdDev : number)
  : number :=
  let n := length_of data in
  let sum := reduce_sum (fun x => Math_pow M ((x - mean) / stdDev) 3) data in
  (n / ((n - 1) * (n - 2))) * sum.

Definition calculateKurtosis (data : list number) (mean stdDev : number)
  : number :=
  let n := length_of data in
  let sum := reduce_sum (fun x => Math_pow M ((x - mean) / stdDev) 4) data in
  ((n * (n + 1)) / ((n - 1) * (n - 2) * (n - 3))) * sum
  - (3 * Math_pow M (n - 1) 2) / ((n - 2) * (n - 3)).

(** The table built by the [forEach] over the data. *)
Definition build_frequency (data : list number) : Frequency :=
  fold_left
    (fun frequency x =>
       let rounded := property_key (Math_round (x * 100) / 100) in
       freq_set rounded (freq_count rounded frequency + 1) frequency)
    data [].

Definition mode_of (data : list number) : value :=
  let frequency := build_frequency data in
  let maxFreq := Math_max (Object_values frequency) in
  if gtb maxFreq 1 then
    match find (fun key => ToNumber (freq_get key frequency) =? maxFreq)
               (Object_keys frequency) with
    | Some key => Some key
    | None => Some 0
    end
  else None.

Definition calculateSummaryStats (data : list number)
  : completion SummaryStatistics :=
  let sorted := JS.sort data in
  let n := length_of data in
  let mean := reduce_sum (fun x => x) data / n in
  let variance :=
    reduce_sum (fun x => Math_pow M (x - mean) 2) data / (n - 1) in
  let standardDeviation := Math_sqrt variance in
  let median := calculatePercentile sorted 50 in
  let q1 := calculatePercentile sorted 25 in
  let q3 := calculatePercentile sorted 75 in
  let mode := mode_of data in
  let skewness := calculateSkewness data mean standardDeviation in
  let kurtosis := calculateKurtosis data mean standardDeviation in
  Normal {|
    mean := mean;
    median := median;
    mode := mode;
    variance := variance;
    standardDeviation := standardDeviation;
    min := get sorted 0;
    max := get sorted (n - 1);
    range := ToNumber (get sorted (n - 1)) - ToNumber (get sorted 0);
    quartiles := {| q1 := q1; q2 := median; q3 := q3 |};
    interquartileRange := ToNumber q3 - ToNumber q1;
    skewness := skewness;
    kurtosis := kurtosis
  |}.

(** Calculate log-likelihood (simplified): only the normal and the
    exponential family have a case; every other name takes [default]. *)
Definition calculateLogLikelihood (data : list number) (distribution : string)
    (params : Params) : number :=
  if distribution == "normal" then
    let mean := ToNumber (lookup "mean" params) in
    let stdDev := ToNumber (lookup "stdDev" params) in
    fold_left
      (fun logLikelihood x =>
         logLikelihood
         + (-0.5 * Math_log M (2 * Math_PI * stdDev * stdDev)
            - 0.5 * Math_pow M ((x - mean) / stdDev) 2))
      data 0
  else if distribution == "exponential" then
    let lambda := ToNumber (lookup "lambda" params) in
    fold_left
      (fun logLikelihood x => logLikelihood + (Math_log M lambda - lambda * x))
      data 0
  else neg_infinity.

(** The two quantities both estimators start from. *)
Definition sample_mean (data : list number) : number :=
  reduce_sum (fun x => x) data / length_of data.

Definition sample_variance_n (data : list number) : number :=
  reduce_sum (fun x => Math_pow M (x - sample_mean data) 2) data
  / length_of data.

(** Maximum Likelihood Estimation *)
Definition estimateMLE (data : list number) (distribution : string)
    (initialParams : Params) : completion EstimationResult :=
  let mean := sample_mean data in
  let variance := sample_variance_n data in
  let estimatedParams : Params :=
    if distribution == "normal" then
      [("mean", mean); ("stdDev", Math_sqrt variance)]
    else if distribution == "exponential" then
      [("lambda", 1 / mean)]
    else if distribution == "poisson" then
      [("lambda", mean)]
    else if distribution == "uniform" then
      [("min", Math_min data); ("max", Math_max data)]
    else if distribution == "binomial" then
      [("n", Math_max data + 1); ("p", mean / (Math_max data + 1))]
    else [] in
  Normal {|
    method := MLE;
    estimatedParams := estimatedParams;
    logLikelihood :=
      Some (calculateLogLikelihood data distribution estimatedParams)
  |}.

(** Method of Moments estimation *)
Definition estimateMoM (data : list number) (distribution : string)
    (initialParams : Params) : completion EstimationResult :=
  let mean := sample_mean data in
  let variance := sample_variance_n data in
  let estimatedParams : Params :=
    if distribution == "normal" then
      [("mean", mean); ("stdDev", Math_sqrt variance)]
    else if distribution == "exponential" then
      [("lambda", 1 / mean)]
    else if distribution == "poisson" then
      [("lambda", mean)]
    else if distribution == "uniform" then
      let stdDev := Math_sqrt variance in
      [("min", mean - Math_sqrt 3 * stdDev);
       ("max", mean + Math_sqrt 3 * stdDev)]
    else if distribution == "binomial" then
      let p := 1 - (variance / mean) in
      let n_est := mean / p in
      [("n", Math_round n_est); ("p", max2 0.01 (min2 0.99 p))]
    else [] in
  Normal {|
    method := MoM;
    estimatedParams := estimatedParams;
    logLikelihood :=
      Some (calculateLogLikelihood data distribution estimatedParams)
  |}.

End WithMath.

End Statistics.

(* ================================================================== *)
(** * The estimator declared in [App.tsx]                              *)
(* ================================================================== *)

(** [App.tsx] does not import [src/utils/statistics.ts]: it has its own
    [estimateMLE], [estimateMoM] and [factorial]. *)

Module App.

Import JS.
Open Scope string_scope.
Open Scope float_scope.

Inductive DistributionType : Type :=
  normal | exponential | binomial | poisson | uniform.

Inductive Method : Type := MLE | MoM.

Definition Params := list (string * number).

Record EstimationResult : Type := {
  method : Method;
  estimatedParams : Params;
  logLikelihood : value
}.

Definition length_of (data : list number) : number :=
  of_Z (Z.of_nat (List.length data)).

(** [data.reduce((a, b) => a + f(b), 0)]. *)
Definition reduce_sum (f : number -> number) (data : list number) : number :=
  fold_left (fun a b => a + f b) data 0.

(** The loop [for (let i = 2; i <= k; i++) result *= i] of [factorial].
    Its counter is a number, and [k] is an element of the data, so the
    loop is driven by fuel: [None] means it has not ended yet. *)
Fixpoint factorial_loop (fuel : nat) (i k result : number) : option number :=
  match fuel with
  | O => None
  | S fuel' =>
      if i <=? k then factorial_loop fuel' (i + 1) k (result * i)
      else Some result
  end.

Definition factorial (fuel : nat) (k : number) : option number :=
  if k <? 0 then Some nan
  else if k =? 0 then Some 1
  else factorial_loop fuel 2 k 1.

Section WithMath.

Variable M : MathLib.

(** The [reduce] of the Poisson case, which calls [factorial] on every
    element. *)
Fixpoint poisson_logLikelihood (fuel : nat) (lambdaPois : number)
    (data : list number) (acc : number) : option number :=
  match data with
  | [] => Some acc
  | k :: rest =>
      match factorial fuel k with
      | Some f =>
          poisson_logLikelihood fuel lambdaPois rest
            (acc + k * Math_log M lambdaPois - lambdaPois - Math_log M f)
      | None => None
      end
  end.

Definition estimateMLE (fuel : nat) (data : list number)
    (distribution : DistributionType)
  : option (completion EstimationResult) :=
  let n := length_of data in
  match distribution with
  | normal =>
      let sum := reduce_sum (fun b => b) data in
      let mean := sum / n in
      let variance := reduce_sum (fun b => Math_pow M (b - mean) 2) data / n in
      let stdDev := Math_sqrt variance in
      Some (Normal {|
        method := MLE;
        estimatedParams := [("mean", mean); ("stdDev", stdDev)];
        logLikelihood :=
          Some (fold_left
                  (fun acc x =>
                     let term :=
                       -0.5 * Math_log M (2 * Math_PI * variance)
                       - Math_pow M (x - mean) 2 / (2 * variance) in
                     acc + term)
                  data 0) |})
  | exponential =>
      let meanExp := reduce_sum (fun b => b) data / length_of data in
      let lambdaExp := 1 / meanExp in
      Some (Normal {|
        method := MLE;
        estimatedParams := [("lambda", lambdaExp)];
        logLikelihood :=
          Some (fold_left
                  (fun acc x => acc + Math_log M lambdaExp - lambdaExp * x)
                  data 0) |})
  | poisson =>
      let lambdaPois := reduce_sum (fun b => b) data / length_of data in
      match poisson_logLikelihood fuel lambdaPois data 0 with
      | Some ll =>
          Some (Normal {|
            method := MLE;
            estimatedParams := [("lambda", lambdaPois)];
            logLikelihood := Some ll |})
      | None => None
      end
  | uniform =>
      let minUni := Math_min data in
      let maxUni := Math_max data in
      Some (Normal {|
        method := MLE;
        estimatedParams := [("min", minUni); ("max", maxUni)];
        logLikelihood :=
          Some (if minUni <? maxUni then - n * Math_log M (maxUni - minUni)
                else neg_infinity) |})
  | binomial =>
      let sampleMeanBin := reduce_sum (fun b => b) data / length_of data in
      let pBin := min2 0.99 (max2 0.01 (sampleMeanBin / 10)) in
      Some (Normal {|
        method := MLE;
        estimatedParams := [("n", 10); ("p", pBin)];
        logLikelihood := None |})
  end.

Definition estimateMoM (data : list number) (distribution : DistributionType)
  : completion EstimationResult :=
  let n := length_of data in
  let m1 := reduce_sum (fun b => b) data / n in
  let m2 := reduce_sum (fun b => Math_pow M b 2) data / n in
  let estimatedParams : Params :=
    match distribution with
    | normal =>
        let mean := m1 in
        let variance := m2 - Math_pow M m1 2 in
        let stdDev := Math_sqrt variance in
        [("mean", mean); ("stdDev", stdDev)]
    | exponential =>
        let lambdaExp := 1 / m1 in
        [("lambda", lambdaExp)]
    | poisson =>
        let lambdaPois := m1 in
        [("lambda", lambdaPois)]
    | uniform =>
        let varianceUni := m2 - Math_pow M m1 2 in
        let sqrtTerm := Math_sqrt (3 * varianceUni) in
        let minUni := m1 - sqrtTerm in
        let maxUni := m1 + sqrtTerm in
        [("min", minUni); ("max", maxUni)]
    | binomial =>
        let pBin := 1 - (m2 - Math_pow M m1 2) / m1 in
        let nBin := m1 / pBin in
        [("n", nBin); ("p", pBin)]
    end in
  Normal {|
    method := MoM;
    estimatedParams := estimatedParams;
    logLikelihood := None
  |}.

End WithMath.

End App.

(* ================================================================== *)
(** * [src/utils/distributions.ts]                                     *)
(* ================================================================== *)

Module Distributions.

Import JS.
Open Scope float_scope.

Inductive DistributionType : Type :=
  normal | exponential | binomial | poisson | uniform.

(** [DistributionParams[d]]: the parameter object of family [d]; every
    field is a number. *)
Inductive DistributionParams : DistributionType -> Type :=
| NormalParams (mean stdDev : number) : DistributionParams normal
| ExponentialParams (lambda : number) : DistributionParams exponential
| BinomialParams (n p : number) : DistributionParams binomial
| PoissonParams (lambda : number) : DistributionParams poisson
| UniformParams (min max : number) : DistributionParams uniform.

(** The generator of the seeded path: the closure over [currentSeed]. *)
Definition lcg (currentSeed : number) : number * number :=
  let currentSeed' := rem (currentSeed * 1664525 + 1013904223) 4294967296 in
  (currentSeed' / 4294967296, currentSeed').

Section WithMath.

Variable M : MathLib.

Section WithRandom.

(** A uniform source is a state and a step: one call of [random()] returns
    a number and leaves the next state. *)
Variable S : Type.
Variable random : S -> number * S.

(** [for (let i = 0; i < sampleSize; i++) data.push(<body>)].  The counter
    and the bound are numbers, and nothing in the code bounds the number
    of rounds ([sampleSize] may be [Infinity]), so every loop below is
    driven by fuel: [None] means that it has not ended yet. *)
Fixpoint for_push (fuel : nat) (i sampleSize : number)
    (body : S -> option (number * S)) (data : list number) (st : S)
  : option (list number * S) :=
  match fuel with
  | O => None
  | Datatypes.S fuel' =>
      if i <? sampleSize then
        match body st with
        | Some (x, st') =>
            for_push fuel' (i + 1) sampleSize body (data ++ [x]) st'
        | None => None
        end
      else Some (data, st)
  end.

(** [for (let j = 0; j < n; j++) if (random() < p) successes++]. *)
Fixpoint trials (fuel : nat) (j n p successes : number) (st : S)
  : option (number * S) :=
  match fuel with
  | O => None
  | Datatypes.S fuel' =>
      if j <? n then
        let (u, st') := random st in
        trials fuel' (j + 1) n p
          (if u <? p then successes + 1 else successes) st'
      else Some (successes, st)
  end.

(** [while (u > F) { k++; p *= poissonLambda / k; F += p; }]. *)
Fixpoint poisson_while (fuel : nat) (u poissonLambda k p F : number)
  : option number :=
  match fuel with
  | O => None
  | Datatypes.S fuel' =>
      if gtb u F then
        let k' := k + 1 in
        let p' := p * (poissonLambda / k') in
        poisson_while fuel' u poissonLambda k' p' (F + p')
      else Some k
  end.

Definition generateWithCustomRandom (fuel : nat) (d : DistributionType)
    (params : DistributionParams d) (sampleSize : number) (st : S)
  : option (list number * S) :=
  match params with
  | NormalParams mean stdDev =>
      for_push fuel 0 sampleSize
        (fun st =>
           let (u1, st1) := random st in
           let (u2, st2) := random st1 in
           let z0 :=
             Math_sqrt (-2 * Math_log M u1) * Math_cos M (2 * Math_PI * u2) in
           Some (mean + stdDev * z0, st2))
        [] st
  | ExponentialParams lambda =>
      for_push fuel 0 sampleSize
        (fun st =>
           let (u, st') := random st in
           Some (- Math_log M u / lambda, st'))
        [] st
  | BinomialParams n p =>
      for_push fuel 0 sampleSize
        (fun st => trials fuel 0 n p 0 st)
        [] st
  | PoissonParams poissonLambda =>
      for_push fuel 0 sampleSize
        (fun st =>
           let p := Math_exp M (- poissonLambda) in
           let F := p in
           let (u, st') := random st in
           match poisson_while fuel u poissonLambda 0 p F with
           | Some k => Some (k, st')
           | None => None
           end)
        [] st
  | UniformParams min max =>
      for_push fuel 0 sampleSize
        (fun st =>
           let (u, st') := random st in
           Some (min + u * (max - min), st'))
        [] st
  end.

End WithRandom.

(** [Math.random] is a source over the state [W] of the host. *)
Variable W : Type.
Variable Math_random : W -> number * W.

(** Generate random data from distributions.  With a seed the source is
    [lcg], started at the seed and private to the call. *)
Definition generateData (fuel : nat) (d : DistributionType)
    (params : DistributionParams d) (sampleSize : number)
    (seed : option number) (w : W)
  : option (completion (list number) * W) :=
  match seed with
  | Some s =>
      match generateWithCustomRandom lcg fuel params sampleSize s with
      | Some (data, _) => Some (Normal data, w)
      | None => None
      end
  | None =>
      match generateWithCustomRandom Math_random fuel params sampleSize w with
      | Some (data, w') => Some (Normal data, w')
      | None => None
      end
  end.

End WithMath.

(** ** Notions the properties of the sampler are stated with *)

(** The number of rounds of [for (let c = i; c < bound; c++)]. *)
Fixpoint loop_count (fuel : nat) (i bound : number) : option nat :=
  match fuel with
  | O => None
  | Datatypes.S fuel' =>
      if i <? bound then option_map Datatypes.S (loop_count fuel' (i + 1) bound)
      else Some O
  end.

(** The value of a counter that started at 0 after [m] increments. *)
Definition counter (m : nat) : number := Nat.iter m (fun c => c + 1) 0.

(** The next [k] draws of a source, in the order they are drawn, and the
    state they leave. *)
Fixpoint draws (S : Type) (random : S -> number * S) (k : nat) (st : S)
  : list number * S :=
  match k with
  | O => ([], st)
  | Datatypes.S k' =>
      let (u, st1) := random st in
      let (us, st') := draws random k' st1 in
      (u :: us, st')
  end.

(** The draws of a list taken two by two. *)
Fixpoint pairs (us : list number) : list (number * number) :=
  match us with
  | u1 :: u2 :: us' => (u1, u2) :: pairs us'
  | _ => []
  end.

(** The number of draws of a list that are below [p]. *)
Definition successes (p : number) (us : list number) : nat :=
  List.length (filter (fun u => u <? p) us).

(** The sample of each family in terms of the draws of the source, in
    the order they are drawn. *)
Definition sample_of (M : MathLib) (S : Type) (random : S -> number * S)
    (fuel : nat) (d : DistributionType)
    (params : DistributionParams d) (k : nat) (st : S)
    (data : list number) (st' : S) : Prop :=
  match params with
  | NormalParams mean stdDev =>
      data
      = map (fun u =>
               mean
               + stdDev
                 * (Math_sqrt (-2 * Math_log M (fst u))
                    * Math_cos M (2 * Math_PI * snd u)))
          (pairs (fst (draws random (2 * k) st)))
      /\ st' = snd (draws random (2 * k) st)
  | ExponentialParams lambda =>
      data = map (fun u => - Math_log M u / lambda) (fst (draws random k st))
      /\ st' = snd (draws random k st)
  | BinomialParams n p =>
      exists m,
        (k = O \/ loop_count fuel 0 n = Some m)
        /\ (data, st')
           = draws (fun s =>
                      (counter (successes p (fst (draws random m s))),
                       snd (draws random m s))) k st
        /\ Forall (fun x => exists c, (c <= m)%nat /\ x = counter c) data
  | PoissonParams lambda =>
      Forall2
        (fun u x =>
           poisson_while fuel u lambda 0 (Math_exp M (- lambda))
             (Math_exp M (- lambda))
           = Some x)
        (fst (draws random k st)) data
      /\ Forall (fun x => exists c, x = counter c) data
      /\ st' = snd (draws random k st)
  | UniformParams min max =>
      data = map (fun u => min + u * (max - min)) (fst (draws random k st))
      /\ st' = snd (draws random k st)
  end.

(** The whole sizes up to [largest_size] are counted exactly: a loop from 0
    to the number [z] makes [z] rounds. *)
Definition largest_size : nat := Z.to_nat 2000.

Definition size_counted (z : nat) : bool :=
  match loop_count (Datatypes.S z) 0 (of_Z (Z.of_nat z)) with
  | Some k => Nat.eqb k z
  | None => false
  end.

(** After [c] increments a counter is the whole number [c]. *)
Definition counter_whole (c : nat) : bool :=
  PrimFloat.Leibniz.eqb (counter c) (of_Z (Z.of_nat c)).

End Distributions.

(* ================================================================== *)
(** * [src/components/DistributionGenerator.tsx]                       *)
(* ================================================================== *)

(** The component has a sampler of its own, [generateData], which draws
    from [Math.random] and has the [switch] inside the loop over the
    sample. *)
Module DistributionGenerator.

Import JS.
Import Distributions.
Open Scope float_scope.

Section WithMath.

Variable M : MathLib.
Variable W : Type.
Variable Math_random : W -> number * W.

(** [for (let j = 0; j < n; j++) if (Math.random() < p) successes++]. *)
Fixpoint binomial_for (fuel : nat) (j n p successes : number) (w : W)
  : option (number * W) :=
  match fuel with
  | O => None
  | S fuel' =>
      if j <? n then
        let (u, w') := Math_random w in
        binomial_for fuel' (j + 1) n p
          (if u <? p then successes + 1 else successes) w'
      else Some (successes, w)
  end.

(** [while (u > F) { k++; prob *= poissonLambda / k; F += prob; }]. *)
Fixpoint poisson_while (fuel : nat) (u poissonLambda k prob F : number)
  : option number :=
  match fuel with
  | O => None
  | S fuel' =>
      if gtb u F then
        let k' := k + 1 in
        let prob' := prob * (poissonLambda / k') in
        poisson_while fuel' u poissonLambda k' prob' (F + prob')
      else Some k
  end.

(** The [switch]: one round of the loop, which pushes one number. *)
Definition switch (fuel : nat) (d : DistributionType)
    (params : DistributionParams d) (w : W) : option (number * W) :=
  match params with
  | NormalParams mean stdDev =>
      let (u1, w1) := Math_random w in
      let (u2, w2) := Math_random w1 in
      let z0 :=
        Math_sqrt (-2 * Math_log M u1) * Math_cos M (2 * Math_PI * u2) in
      Some (mean + stdDev * z0, w2)
  | ExponentialParams lambda =>
      let (u, w') := Math_random w in
      Some (- Math_log M u / lambda, w')
  | BinomialParams n p => binomial_for fuel 0 n p 0 w
  | PoissonParams poissonLambda =>
      let prob := Math_exp M (- poissonLambda) in
      let F := prob in
      let (u, w') := Math_random w in
      match poisson_while fuel u poissonLambda 0 prob F with
      | Some k => Some (k, w')
      | None => None
      end
  | UniformParams min max =>
      let (u, w') := Math_random w in
      Some (min + u * (max - min), w')
  end.

(** [for (let i = 0; i < sampleSize; i++) { switch ... }]; [inner] is the
    fuel of the loops inside the [switch]. *)
Fixpoint generateData_for (inner fuel : nat) (d : DistributionType)
    (params : DistributionParams d) (i sampleSize : number)
    (data : list number) (w : W) : option (list number * W) :=
  match fuel with
  | O => None
  | S fuel' =>
      if i <? sampleSize then
        match switch inner params w with
        | Some (x, w') =>
            generateData_for inner fuel' params (i + 1) sampleSize
              (data ++ [x]) w'
        | None => None
        end
      else Some (data, w)
  end.

Definition generateData (fuel : nat) (d : DistributionType)
    (params : DistributionParams d) (sampleSize : number) (w : W)
  : option (list number * W) :=
  generateData_for fuel fuel params 0 sampleSize [] w.

End WithMath.

End DistributionGenerator.

(* ================================================================== *)
(** * The histogram of [DataVisualization]                             *)
(* ================================================================== *)

(** [histogramData] of the component [DataVisualization], whose text
    follows [components/SummaryStatistics.tsx] in the sources. *)
Module DataVisualization.

Import JS.
Open Scope string_scope.
Open Scope float_scope.

(** A bin.  Its label [bin], a string made of [binStart] and [binEnd] by
    [toFixed(2)], is left out: nothing reads it. *)
Record Bin : Type := {
  count : number;
  density : number;
  binStart : number;
  binEnd : number
}.

(** [bins[i]] for a number [i]. *)
Definition get_bin (bins : list Bin) (i : number) : option (nat * Bin) :=
  match to_Z i with
  | Some z =>
      if (z <? 0)%Z then None
      else match nth_error bins (Z.to_nat z) with
           | Some b => Some (Z.to_nat z, b)
           | None => None
           end
  | None => None
  end.

(** [bins[i].count++] for an index [i] of [bins]. *)
Fixpoint increment (bins : list Bin) (i : nat) : list Bin :=
  match bins, i with
  | [], _ => []
  | b :: bins', O =>
      {| count := count b + 1; density := density b;
         binStart := binStart b; binEnd := binEnd b |} :: bins'
  | b :: bins', S i' => b :: increment bins' i'
  end.

(** The length that [Array.from({ length })] makes of a number: its
    integer part, and 0 when it is NaN or negative. *)
Definition array_length (length : number) : nat :=
  match to_Z (Math_floor length) with
  | Some z => Z.to_nat z
  | None => O
  end.

(** [Math.min(20, Math.ceil(Math.sqrt(values.length)))]. *)
Definition numBins_of (length : number) : number :=
  min2 20 (Math_ceil (Math_sqrt length)).

Definition histogramData (values : list number) : completion (list Bin) :=
  let min := Math_min values in
  let max := Math_max values in
  let numBins := numBins_of (of_Z (Z.of_nat (List.length values))) in
  let binWidth := (max - min) / numBins in
  let bins :=
    map (fun i =>
           let i := of_Z (Z.of_nat i) in
           {| count := 0; density := 0;
              binStart := min + i * binWidth;
              binEnd := min + (i + 1) * binWidth |})
      (seq 0 (array_length numBins)) in
  let counted :=
    fold_left
      (fun acc value =>
         match acc with
         | Normal bins =>
             let binIndex :=
               min2 (Math_floor ((value - min) / binWidth)) (numBins - 1) in
             match get_bin bins binIndex with
             | Some (i, _) => Normal (increment bins i)
             | None => Throw "TypeError"
             end
         | Throw name => Throw name
         end)
      values (Normal bins) in
  match counted with
  | Normal bins =>
      Normal
        (map (fun bin =>
                {| count := count bin;
                   density :=
                     count bin
                     / (of_Z (Z.of_nat (List.length values)) * binWidth);
                   binStart := binStart bin; binEnd := binEnd bin |})
           bins)
  | Throw name => Throw name
  end.

(** The sample sizes for which the width of the bins of a sample without
    spread, 0 / numBins, has been computed to be 0. *)
Definition largest_size : nat := Z.to_nat 2000.

Definition zero_width (n : nat) : bool :=
  PrimFloat.Leibniz.eqb (0 / numBins_of (of_Z (Z.of_nat n))) 0.

End DataVisualization.

(* ================================================================== *)
(** * A concrete platform                                              *)
(* ================================================================== *)

(** One possible [MathLib], used to run the program on concrete inputs.
    Its functions follow the special values the language fixes
    ([log 0 = -Infinity], [pow] of NaN, ...) and approximate the others by
    truncated series; integer powers are repeated products. *)
Module Reference.

Import JS.
Open Scope float_scope.

Definition LN2 : number := 0.6931471805599453.

Fixpoint atanh_series (terms : nat) (pw d t2 acc : number) : number :=
  match terms with
  | O => acc
  | S terms' => atanh_series terms' (pw * t2) (d + 2) t2 (acc + pw / d)
  end.

Definition log (x : number) : number :=
  match Prim2SF x with
  | S754_nan => nan
  | S754_zero _ => neg_infinity
  | S754_infinity s => if s then nan else infinity
  | S754_finite s _ _ =>
      if s then nan
      else
        let (m, e) := Z.frexp x in
        let (m, e) := if m <? 0.75 then (2 * m, (e - 1)%Z) else (m, e) in
        let t := (m - 1) / (m + 1) in
        of_Z e * LN2 + 2 * atanh_series 24 t 1 (t * t) 0
  end.

Fixpoint exp_series (terms : nat) (term i r acc : number) : number :=
  match terms with
  | O => acc
  | S terms' => exp_series terms' (term * r / i) (i + 1) r (acc + term)
  end.

Definition exp (x : number) : number :=
  match Prim2SF x with
  | S754_nan => nan
  | S754_zero _ => 1
  | S754_infinity s => if s then 0 else infinity
  | S754_finite _ _ _ =>
      if x <? -746 then 0
      else if 710 <? x then infinity
      else
        let k := Math_round (x / LN2) in
        let r := x - k * LN2 in
        match to_Z k with
        | Some z => Z.ldexp (exp_series 24 1 1 r 0) z
        | None => nan
        end
  end.

Fixpoint cos_series (terms : nat) (term i r2 acc : number) : number :=
  match terms with
  | O => acc
  | S terms' =>
      cos_series terms' (- term * r2 / (i * (i + 1))) (i + 2) r2 (acc + term)
  end.

Definition cos (x : number) : number :=
  if Number_isFinite x then
    let r := rem (abs x) (2 * Math_PI) in
    cos_series 40 1 1 (r * r) 0
  else nan.

Definition pow (x y : number) : number :=
  match to_Z y with
  | Some 0%Z => 1
  | Some (Zpos k) => Pos.iter_op PrimFloat.mul k x
  | _ => nan
  end.

Definition math : MathLib :=
  {| Math_log := log; Math_exp := exp; Math_cos := cos; Math_pow := pow |}.

(** A host whose [Math.random] always answers 0.5. *)
Definition host : Type := unit.
Definition Math_random (w : host) : number * host := (0.5, w).

End Reference.

(* ================================================================== *)
(** * Inputs of the worked examples                                    *)
(* ================================================================== *)

Module Examples.

Import JS.
Open Scope float_scope.

Definition zero_to_nine : list number := [0; 1; 2; 3; 4; 5; 6; 7; 8; 9].

(** The deviations of [zero_to_nine] from its mean 4.5. *)
Definition deviations_zero_to_nine : list number :=
  [-4.5; -3.5; -2.5; -1.5; -0.5; 0.5; 1.5; 2.5; 3.5; 4.5].

(** The seed whose first draw is 0:
    634785765 * 1664525 + 1013904223 = 246013 * 2^32. *)
Definition zero_draw_seed : number := 634785765.

(** The seed whose first draw is 1 - 2^-32, the largest the generator has:
    653637408 * 1664525 + 1013904223 = 253319 * 2^32 - 1. *)
Definition top_draw_seed : number := 653637408.

(** The arguments [Math.pow(b, 2)] is called on when the estimator of
    [App.tsx] takes the second moment of [zero_to_nine]. *)
Definition moments_zero_to_nine : list number :=
  [0; 1; 2; 3; 4; 5; 6; 7; 8; 9; 4.5].

(** The sample of the Poisson example. *)
Definition two_three_two : list nat := [2; 3; 2]%nat.

End Examples.

(* ================================================================== *)
(** * The Poisson log-likelihood as the specification words it         *)
(* ================================================================== *)

Module Spec.

Import JS.
Open Scope float_scope.

Definition of_nat (k : nat) : number := of_Z (Z.of_nat k).

(** "k! = product of i for i = 2 .. k, with 0! = 1". *)
Definition factorial (k : nat) : number :=
  fold_left (fun result i => result * of_nat i) (seq 2 (k - 1)) 1.

(** "Sum of k ln(lambda) - lambda - ln(k!)", accumulated from the left in
    the order of the sample. *)
Definition poisson_logLikelihood (M : MathLib) (lambda : number)
    (ks : list nat) : number :=
  fold_left
    (fun acc k =>
       acc + of_nat k * Math_log M lambda - lambda
       - Math_log M (factorial k))
    ks 0.

End Spec.

(* ================================================================== *)
(** * Auxiliary notions the properties are stated with                 *)
(* ================================================================== *)

Module Compare.

(** The comparison of two finite numbers of the same sign: exponents
    first, then mantissas. *)
Definition magnitude_compare (e1 : Z) (m1 : positive) (e2 : Z) (m2 : positive)
  : comparison :=
  match (e1 ?= e2)%Z with
  | Lt => Lt
  | Gt => Gt
  | Eq => (m1 ?= m2)%positive
  end.

Definition not_nan (x : JS.number) : Prop := PrimFloat.is_nan x = false.

(** The comparator [(a, b) => a - b] does not put [a] after [b]. *)
Definition in_order (a b : JS.number) : Prop :=
  JS.gtb (PrimFloat.sub a b) PrimFloat.zero = false.

End Compare.

(** The quantile that linear interpolation between the closest ranks
    gives: quarter [q] (1, 2 or 3) of a sorted sample of [n] elements sits
    at rank q (n - 1) / 4. *)
Module Quantile.

Import JS.
Open Scope float_scope.

Definition quarter (sorted : list number) (q : Z) : value :=
  let t := (q * (Z.of_nat (List.length sorted) - 1))%Z in
  let k := Z.to_nat (t / 4) in
  let r := (t mod 4)%Z in
  if (r =? 0)%Z then nth_error sorted k
  else
    let w := of_Z r / 4 in
    Some (ToNumber (nth_error sorted k) * (1 - w)
          + ToNumber (nth_error sorted (S k)) * w).

(** What [calculatePercentile] computes on the way, for a sample of [n]
    elements and the percentile 25 q. *)
Definition index_ok (n : nat) (q : Z) : bool :=
  let index := (of_Z (25 * q) / 100) * (of_Z (Z.of_nat n) - 1) in
  let t := (q * (Z.of_nat n - 1))%Z in
  let k := (t / 4)%Z in
  let r := (t mod 4)%Z in
  if (r =? 0)%Z then
    Number_isInteger index
    && match to_Z index with Some z => (z =? k)%Z | None => false end
  else
    negb (Number_isInteger index)
    && match to_Z (Math_floor index) with Some z => (z =? k)%Z | None => false end
    && match to_Z (Math_ceil index) with Some z => (z =? k + 1)%Z | None => false end
    && PrimFloat.Leibniz.eqb (index - Math_floor index) (of_Z r / 4).

Definition last_index_ok (n : nat) : bool :=
  match to_Z (of_Z (Z.of_nat n) - 1) with
  | Some z => (z =? Z.of_nat n - 1)%Z
  | None => false
  end.

(** The sample sizes on which the index arithmetic has been run. *)
Definition largest_size : nat := Z.to_nat 2000.

Definition size_ok (n : nat) : bool :=
  index_ok n 1 && index_ok n 2 && index_ok n 3 && last_index_ok n.

End Quantile.

(* ================================================================== *)
(** * Properties of [src/utils/statistics.ts]                          *)
(* ================================================================== *)

Import JS.
Open Scope string_scope.
Open Scope float_scope.

(** Turns [squares_exactly M [x1; ...; xn]] into one computed equation per
    argument. *)
Ltac use_squares H :=
  unfold squares_exactly in H;
  repeat match type of H with
         | Forall _ (_ :: _) =>
             let Hx := fresh "Hsq" in
             apply Forall_cons_iff in H; destruct H as [Hx H];
             vm_compute in Hx
         end;
  clear H.

Ltac rewrite_squares :=
  repeat match goal with
         | Hx : _ = _ |- _ => rewrite Hx; clear Hx
         end.

(** The same, keeping the equations. *)
Ltac rewrite_squares_keep :=
  repeat match goal with
         | Hx : _ = _ |- _ => rewrite Hx
         end.

(** Closes [squares_exactly M xs] and the like on a concrete platform. *)
Ltac by_computation :=
  repeat first [ apply Forall_nil | apply Forall_cons ];
  vm_compute; reflexivity.

(** ** Estimators *)

Section StatisticsEstimators.

Import Statistics.

Variable M : MathLib.

(** Every call of the two estimators and of the summary ends normally:
    none of them has a [throw]. *)
Lemma estimateMLE_returns (data : list number) (distribution : string)
    (ip : Params) :
  exists r, estimateMLE M data distribution ip = Normal r.
Proof. unfold estimateMLE. eexists. reflexivity. Qed.

Lemma estimateMoM_returns (data : list number) (distribution : string)
    (ip : Params) :
  exists r, estimateMoM M data distribution ip = Normal r.
Proof. unfold estimateMoM. eexists. reflexivity. Qed.

Lemma calculateSummaryStats_returns (data : list number) :
  exists r, calculateSummaryStats M data = Normal r.
Proof. unfold calculateSummaryStats. eexists. reflexivity. Qed.

Lemma Normal_not_Throw (A : Type) (a : A) (name : string) :
  ~ throws (Normal a) name.
Proof. unfold throws. discriminate. Qed.

End StatisticsEstimators.

(** ** Enumerations *)

Lemma forallb_seq (f : nat -> bool) (a n z : nat) :
  forallb f (seq a n) = true -> (a <= z < a + n)%nat -> f z = true.
Proof.
  intros H Hz. rewrite forallb_forall in H. apply H, in_seq. exact Hz.
Qed.

(** ** Numbers that are not finite *)

Section NotFinite.

Lemma div_zero_not_finite (x : number) : Number_isFinite (x / 0) = false.
Proof.
  unfold Number_isFinite. rewrite div_spec.
  change (Prim2SF 0) with (S754_zero false).
  destruct (Prim2SF x) as [s | s | | s m e]; reflexivity.
Qed.

Lemma div_neg_zero_not_finite (x : number) : Number_isFinite (x / (-0)) = false.
Proof.
  unfold Number_isFinite. rewrite div_spec.
  change (Prim2SF (-0)) with (S754_zero true).
  destruct (Prim2SF x) as [s | s | | s m e]; reflexivity.
Qed.

Lemma mul_not_finite_l (x y : number) :
  Number_isFinite x = false -> Number_isFinite (x * y) = false.
Proof.
  unfold Number_isFinite. rewrite mul_spec.
  destruct (Prim2SF x) as [s | s | | s m e]; try discriminate; intros _;
    destruct (Prim2SF y) as [s' | s' | | s' m' e']; reflexivity.
Qed.

Lemma sub_not_finite_l (x y : number) :
  Number_isFinite x = false -> Number_isFinite (x - y) = false.
Proof.
  unfold Number_isFinite. rewrite sub_spec.
  destruct (Prim2SF x) as [s | s | | s m e]; try discriminate; intros _;
    destruct (Prim2SF y) as [s' | s' | | s' m' e']; try reflexivity;
    destruct s, s'; reflexivity.
Qed.

Lemma sqrt_not_finite (x : number) :
  Number_isFinite x = false -> Number_isFinite (Math_sqrt x) = false.
Proof.
  unfold Number_isFinite, Math_sqrt. rewrite sqrt_spec.
  destruct (Prim2SF x) as [s | s | | s m e]; try discriminate; intros _;
    try destruct s; reflexivity.
Qed.

(** A division of +Infinity by a finite positive number is +Infinity. *)
Lemma infinity_div_positive (y : number) :
  Number_isFinite y = true -> (0 <? y) = true -> infinity / y = infinity.
Proof.
  unfold Number_isFinite. rewrite ltb_spec. intros Hf Hpos.
  apply Prim2SF_inj. rewrite div_spec.
  change (Prim2SF infinity) with (S754_infinity false).
  change (Prim2SF 0) with (S754_zero false) in Hpos.
  destruct (Prim2SF y) as [s | s | | s m e]; try discriminate.
  destruct s; [discriminate | reflexivity].
Qed.

End NotFinite.

(** ** Order of numbers *)

Section Order.

Lemma SFcompare_antisym (a b : spec_float) :
  SFcompare b a = option_map CompOpp (SFcompare a b).
Proof.
  destruct a as [s1 | s1 | | s1 m1 e1], b as [s2 | s2 | | s2 m2 e2];
    simpl; try reflexivity;
    try (destruct s1; reflexivity); try (destruct s2; reflexivity);
    try (destruct s1, s2; reflexivity).
  destruct s1, s2; simpl; try reflexivity;
    rewrite (Z.compare_antisym e1 e2);
    destruct (e1 ?= e2)%Z; simpl; try reflexivity;
    rewrite (Pos.compare_cont_antisym m1 m2 Eq); simpl;
    try rewrite CompOpp_involutive; reflexivity.
Qed.

Lemma ltb_leb (x y : number) : (x <? y) = true -> (x <=? y) = true.
Proof.
  rewrite ltb_spec, leb_spec. unfold SFltb, SFleb.
  destruct (SFcompare (Prim2SF x) (Prim2SF y)) as [[ | | ]|];
    intros H; try discriminate; reflexivity.
Qed.

Lemma is_nan_spec (x : number) :
  is_nan x = false -> Prim2SF x <> S754_nan.
Proof.
  unfold is_nan. rewrite FloatAxioms.eqb_spec. unfold SFeqb. intros H E.
  rewrite E in H. discriminate.
Qed.

Lemma not_ltb_leb (x y : number) :
  is_nan x = false -> is_nan y = false ->
  (y <? x) = false -> (x <=? y) = true.
Proof.
  intros Hx Hy. apply is_nan_spec in Hx, Hy.
  rewrite ltb_spec, leb_spec. unfold SFltb, SFleb.
  rewrite (SFcompare_antisym (Prim2SF x) (Prim2SF y)).
  destruct (SFcompare (Prim2SF x) (Prim2SF y)) as [[ | | ]|] eqn:E;
    simpl; intros H; try discriminate; try reflexivity.
  exfalso.
  destruct (Prim2SF x) as [s1 | s1 | | s1 m1 e1];
    destruct (Prim2SF y) as [s2 | s2 | | s2 m2 e2];
    simpl in E; try discriminate; congruence.
Qed.

(** [Math.min(0.99, Math.max(0.01, x))] lies in [0.01, 0.99] unless [x]
    is NaN. *)
Lemma clamp_bounds (x : number) :
  is_nan x = false ->
  (0.01 <=? min2 0.99 (max2 0.01 x)) = true
  /\ (min2 0.99 (max2 0.01 x) <=? 0.99) = true.
Proof.
  intros Hx.
  assert (Hy : is_nan (max2 0.01 x) = false
               /\ (0.01 <=? max2 0.01 x) = true).
  { unfold max2. rewrite Hx. change (is_nan 0.01 || false) with false.
    cbv iota.
    destruct (x <? 0.01); [split; reflexivity|].
    destruct (0.01 <? x) eqn:E; [split; [assumption | apply ltb_leb, E]|].
    split; reflexivity. }
  destruct Hy as [Hnan Hlow]. set (y := max2 0.01 x) in *.
  unfold min2. rewrite Hnan. change (is_nan 0.99 || false) with false.
  cbv iota.
  destruct (0.99 <? y) eqn:E1; [split; reflexivity|].
  destruct (y <? 0.99) eqn:E2; [split; [assumption | apply ltb_leb, E2]|].
  change (sign_bit 0.99) with false. cbv iota.
  split; [assumption|]. apply not_ltb_leb; [assumption | reflexivity | exact E1].
Qed.

End Order.

(* ================================================================== *)
(** * Further properties                                               *)
(* ================================================================== *)

(** ** The order of numbers *)

Section NumberOrder.

Lemma magnitude_compare_le_trans e1 m1 e2 m2 e3 m3 :
  Compare.magnitude_compare e1 m1 e2 m2 <> Gt ->
  Compare.magnitude_compare e2 m2 e3 m3 <> Gt ->
  Compare.magnitude_compare e1 m1 e3 m3 <> Gt.
Proof.
  unfold Compare.magnitude_compare.
  destruct (Z.compare_spec e1 e2), (Z.compare_spec e2 e3),
    (Z.compare_spec e1 e3); try congruence; try lia; subst;
    destruct (Pos.compare_spec m1 m2), (Pos.compare_spec m2 m3),
      (Pos.compare_spec m1 m3); try congruence; lia.
Qed.

Lemma magnitude_compare_ge_trans e1 m1 e2 m2 e3 m3 :
  Compare.magnitude_compare e1 m1 e2 m2 <> Lt ->
  Compare.magnitude_compare e2 m2 e3 m3 <> Lt ->
  Compare.magnitude_compare e1 m1 e3 m3 <> Lt.
Proof.
  unfold Compare.magnitude_compare.
  destruct (Z.compare_spec e1 e2), (Z.compare_spec e2 e3),
    (Z.compare_spec e1 e3); try congruence; try lia; subst;
    destruct (Pos.compare_spec m1 m2), (Pos.compare_spec m2 m3),
      (Pos.compare_spec m1 m3); try congruence; lia.
Qed.

Lemma SFcompare_finite (s1 : bool) m1 e1 (s2 : bool) m2 e2 :
  SFcompare (S754_finite s1 m1 e1) (S754_finite s2 m2 e2)
  = Some match s1, s2 with
         | true, false => Lt
         | false, true => Gt
         | false, false => Compare.magnitude_compare e1 m1 e2 m2
         | true, true => CompOpp (Compare.magnitude_compare e1 m1 e2 m2)
         end.
Proof.
  unfold Compare.magnitude_compare. simpl.
  destruct s1, s2; try reflexivity; destruct (e1 ?= e2)%Z; reflexivity.
Qed.

Lemma SFleb_trans (a b c : spec_float) :
  SFleb a b = true -> SFleb b c = true -> SFleb a c = true.
Proof.
  unfold SFleb.
  destruct a as [s1 | s1 | | s1 m1 e1], b as [s2 | s2 | | s2 m2 e2],
    c as [s3 | s3 | | s3 m3 e3];
    rewrite ?SFcompare_finite;
    try (simpl; discriminate); try (simpl; reflexivity);
    try (destruct s1, s2, s3; simpl; try discriminate; reflexivity);
    try (destruct s1, s2; simpl; try discriminate; reflexivity);
    try (destruct s1, s3; simpl; try discriminate; reflexivity);
    try (destruct s2, s3; simpl; try discriminate; reflexivity).
  destruct s1, s2, s3; try discriminate; try reflexivity.
  - pose proof (@magnitude_compare_ge_trans e1 m1 e2 m2 e3 m3) as H.
    destruct (Compare.magnitude_compare e1 m1 e2 m2), (Compare.magnitude_compare e2 m2 e3 m3),
      (Compare.magnitude_compare e1 m1 e3 m3); simpl; try discriminate; try reflexivity;
      intros _ _; exfalso; apply H; congruence.
  - pose proof (@magnitude_compare_le_trans e1 m1 e2 m2 e3 m3) as H.
    destruct (Compare.magnitude_compare e1 m1 e2 m2), (Compare.magnitude_compare e2 m2 e3 m3),
      (Compare.magnitude_compare e1 m1 e3 m3); simpl; try discriminate; try reflexivity;
      intros _ _; exfalso; apply H; congruence.
Qed.

Lemma leb_trans (x y z : number) :
  (x <=? y) = true -> (y <=? z) = true -> (x <=? z) = true.
Proof. rewrite !leb_spec. apply SFleb_trans. Qed.

Lemma ltb_irrefl (x : number) : (x <? x) = false.
Proof.
  rewrite ltb_spec. unfold SFltb.
  pose proof (SFcompare_antisym (Prim2SF x) (Prim2SF x)) as H.
  destruct (SFcompare (Prim2SF x) (Prim2SF x)) as [[ | | ]|];
    try reflexivity; discriminate.
Qed.

Lemma leb_refl (x : number) : is_nan x = false -> (x <=? x) = true.
Proof. intros H. apply not_ltb_leb; try assumption. apply ltb_irrefl. Qed.

Lemma SFcompare_refl (a : spec_float) :
  a <> S754_nan -> SFcompare a a = Some Eq.
Proof.
  destruct a as [s | s | | s m e]; intros H; try congruence.
  - reflexivity.
  - destruct s; reflexivity.
  - rewrite SFcompare_finite. unfold Compare.magnitude_compare.
    rewrite Z.compare_refl, Pos.compare_refl. destruct s; reflexivity.
Qed.

Lemma is_nan_false (x : number) :
  Prim2SF x <> S754_nan -> is_nan x = false.
Proof.
  intros H. unfold is_nan. rewrite FloatAxioms.eqb_spec. unfold SFeqb.
  rewrite (SFcompare_refl H). reflexivity.
Qed.

Lemma is_nan_eq (x : number) : is_nan x = true -> x = nan.
Proof.
  intros H. apply Prim2SF_inj. change (Prim2SF nan) with S754_nan.
  destruct (Prim2SF x) as [s | s | | s m e] eqn:E; try reflexivity;
    rewrite is_nan_false in H; try discriminate; rewrite E; discriminate.
Qed.

Lemma ltb_not_nan (x y : number) :
  (x <? y) = true -> is_nan x = false /\ is_nan y = false.
Proof.
  rewrite ltb_spec. unfold SFltb. intros H.
  split; apply is_nan_false; intros E; rewrite E in H.
  - discriminate.
  - destruct (Prim2SF x); discriminate.
Qed.

(** [Math.min] and [Math.max] of two numbers that are not NaN: one of the
    two, below (above) both. *)
Lemma min2_spec (a b : number) :
  is_nan a = false -> is_nan b = false ->
  (min2 a b = a \/ min2 a b = b)
  /\ (min2 a b <=? a) = true /\ (min2 a b <=? b) = true.
Proof.
  intros Ha Hb. unfold min2. rewrite Ha, Hb. cbn [orb].
  destruct (a <? b) eqn:E1.
  { repeat split; [left; reflexivity | apply leb_refl, Ha | apply ltb_leb, E1]. }
  destruct (b <? a) eqn:E2.
  { repeat split; [right; reflexivity | apply ltb_leb, E2 | apply leb_refl, Hb]. }
  destruct (sign_bit a).
  - repeat split; [left; reflexivity | apply leb_refl, Ha
                   | apply not_ltb_leb; assumption].
  - repeat split; [right; reflexivity | apply not_ltb_leb; assumption
                   | apply leb_refl, Hb].
Qed.

Lemma max2_spec (a b : number) :
  is_nan a = false -> is_nan b = false ->
  (max2 a b = a \/ max2 a b = b)
  /\ (a <=? max2 a b) = true /\ (b <=? max2 a b) = true.
Proof.
  intros Ha Hb. unfold max2. rewrite Ha, Hb. cbn [orb].
  destruct (b <? a) eqn:E1.
  { repeat split; [left; reflexivity | apply leb_refl, Ha | apply ltb_leb, E1]. }
  destruct (a <? b) eqn:E2.
  { repeat split; [right; reflexivity | apply ltb_leb, E2 | apply leb_refl, Hb]. }
  destruct (sign_bit a).
  - repeat split; [right; reflexivity | apply not_ltb_leb; assumption
                   | apply leb_refl, Hb].
  - repeat split; [left; reflexivity | apply leb_refl, Ha
                   | apply not_ltb_leb; assumption].
Qed.

Lemma min2_nan_l (b : number) : min2 nan b = nan.
Proof. reflexivity. Qed.

Lemma max2_nan_l (b : number) : max2 nan b = nan.
Proof. reflexivity. Qed.

Lemma min2_nan_r (a : number) : min2 a nan = nan.
Proof. unfold min2. change (is_nan nan) with true. rewrite orb_true_r. reflexivity. Qed.

Lemma max2_nan_r (a : number) : max2 a nan = nan.
Proof. unfold max2. change (is_nan nan) with true. rewrite orb_true_r. reflexivity. Qed.

End NumberOrder.

(** ** [Math.min(...data)] and [Math.max(...data)] *)

Section MinMax.

Import Compare.

Lemma infinity_not_below (x : number) : (infinity <? x) = false.
Proof.
  rewrite ltb_spec. change (Prim2SF infinity) with (S754_infinity false).
  destruct (Prim2SF x) as [s | s | | s m e]; try reflexivity.
  destruct s; reflexivity.
Qed.

Lemma neg_infinity_not_above (x : number) : (x <? neg_infinity) = false.
Proof.
  rewrite ltb_spec. change (Prim2SF neg_infinity) with (S754_infinity true).
  destruct (Prim2SF x) as [s | s | | s m e]; try reflexivity;
    destruct s; reflexivity.
Qed.

Lemma min2_infinity_l (x : number) : not_nan x -> min2 infinity x = x.
Proof.
  intros Hx. unfold min2. rewrite Hx. change (is_nan infinity) with false.
  cbn [orb]. rewrite infinity_not_below.
  destruct (x <? infinity); reflexivity.
Qed.

Lemma max2_neg_infinity_l (x : number) : not_nan x -> max2 neg_infinity x = x.
Proof.
  intros Hx. unfold max2. rewrite Hx. change (is_nan neg_infinity) with false.
  cbn [orb]. rewrite neg_infinity_not_above.
  destruct (neg_infinity <? x); reflexivity.
Qed.

Lemma fold_min2_spec (l : list number) :
  Forall not_nan l ->
  forall acc, not_nan acc ->
    let m := fold_left min2 l acc in
    not_nan m /\ (m = acc \/ In m l) /\ (m <=? acc) = true
    /\ Forall (fun x => (m <=? x) = true) l.
Proof.
  induction 1 as [|x l Hx Hl IH]; intros acc Hacc; cbn [fold_left].
  - repeat split; [assumption | left; reflexivity | apply leb_refl, Hacc
                   | constructor].
  - destruct (@min2_spec acc x Hacc Hx) as (Hcase & Hle1 & Hle2).
    assert (Hn : not_nan (min2 acc x)) by (destruct Hcase as [-> | ->]; assumption).
    destruct (IH (min2 acc x) Hn) as (Hm & Hin & Hle & Hall).
    repeat split.
    + exact Hm.
    + destruct Hin as [E | Hin]; [|right; right; exact Hin].
      rewrite E. destruct Hcase as [-> | ->]; [left | right; left]; reflexivity.
    + eapply leb_trans; eassumption.
    + constructor; [eapply leb_trans; eassumption | exact Hall].
Qed.

Lemma fold_max2_spec (l : list number) :
  Forall not_nan l ->
  forall acc, not_nan acc ->
    let m := fold_left max2 l acc in
    not_nan m /\ (m = acc \/ In m l) /\ (acc <=? m) = true
    /\ Forall (fun x => (x <=? m) = true) l.
Proof.
  induction 1 as [|x l Hx Hl IH]; intros acc Hacc; cbn [fold_left].
  - repeat split; [assumption | left; reflexivity | apply leb_refl, Hacc
                   | constructor].
  - destruct (@max2_spec acc x Hacc Hx) as (Hcase & Hle1 & Hle2).
    assert (Hn : not_nan (max2 acc x)) by (destruct Hcase as [-> | ->]; assumption).
    destruct (IH (max2 acc x) Hn) as (Hm & Hin & Hle & Hall).
    repeat split.
    + exact Hm.
    + destruct Hin as [E | Hin]; [|right; right; exact Hin].
      rewrite E. destruct Hcase as [-> | ->]; [left | right; left]; reflexivity.
    + eapply leb_trans; eassumption.
    + constructor; [eapply leb_trans; eassumption | exact Hall].
Qed.

Lemma fold_min2_nan (l : list number) : fold_left min2 l nan = nan.
Proof. induction l as [|x l IH]; [reflexivity | exact IH]. Qed.

Lemma fold_max2_nan (l : list number) : fold_left max2 l nan = nan.
Proof. induction l as [|x l IH]; [reflexivity | exact IH]. Qed.

Lemma Math_min_nan (l : list number) :
  Exists (fun x => is_nan x = true) l -> Math_min l = nan.
Proof.
  intros H. unfold Math_min. generalize infinity.
  induction H as [x l Hx | x l _ IH]; intros acc; cbn [fold_left].
  - rewrite (@is_nan_eq x Hx), min2_nan_r. apply fold_min2_nan.
  - apply IH.
Qed.

Lemma Math_max_nan (l : list number) :
  Exists (fun x => is_nan x = true) l -> Math_max l = nan.
Proof.
  intros H. unfold Math_max. generalize neg_infinity.
  induction H as [x l Hx | x l _ IH]; intros acc; cbn [fold_left].
  - rewrite (@is_nan_eq x Hx), max2_nan_r. apply fold_max2_nan.
  - apply IH.
Qed.

Lemma Math_min_spec (l : list number) :
  Forall not_nan l -> l <> [] ->
  In (Math_min l) l /\ Forall (fun x => (Math_min l <=? x) = true) l.
Proof.
  intros Hl Hne. destruct l as [|x l]; [congruence|].
  inversion Hl as [|? ? Hx Hl']; subst.
  unfold Math_min. cbn [fold_left]. rewrite (@min2_infinity_l x Hx).
  destruct (@fold_min2_spec l Hl' x Hx) as (_ & Hin & Hle & Hall).
  split.
  - destruct Hin as [-> | Hin]; [left; reflexivity | right; exact Hin].
  - constructor; assumption.
Qed.

Lemma Math_max_spec (l : list number) :
  Forall not_nan l -> l <> [] ->
  In (Math_max l) l /\ Forall (fun x => (x <=? Math_max l) = true) l.
Proof.
  intros Hl Hne. destruct l as [|x l]; [congruence|].
  inversion Hl as [|? ? Hx Hl']; subst.
  unfold Math_max. cbn [fold_left]. rewrite (@max2_neg_infinity_l x Hx).
  destruct (@fold_max2_spec l Hl' x Hx) as (_ & Hin & Hle & Hall).
  split.
  - destruct Hin as [-> | Hin]; [left; reflexivity | right; exact Hin].
  - constructor; assumption.
Qed.

End MinMax.

Section StatisticsClaims.

Import Statistics.

(** C1, on [src/utils/statistics.ts].  For the Poisson family the
    estimator returns lambda = sample mean, but its log-likelihood is
    -Infinity on every sample: [calculateLogLikelihood] has no Poisson
    case.  On [2, 3, 2] the fitted lambda is 7/3 and the log-likelihood is
    -Infinity, not the sum of k ln(lambda) - lambda - ln(k!). *)
Theorem statistics_poisson_logLikelihood (M : MathLib) :
  (forall (data : list number) (ip : Params),
      estimateMLE M data "poisson" ip
      = Normal {| method := MLE;
                  estimatedParams := [("lambda", sample_mean data)];
                  logLikelihood := Some neg_infinity |})
  /\ (forall ip : Params,
         estimateMLE M [2; 3; 2] "poisson" ip
         = Normal {| method := MLE;
                     estimatedParams := [("lambda", 7 / 3)];
                     logLikelihood := Some neg_infinity |}).
Proof. split; intros; reflexivity. Qed.

(** C8, a sample on which the claim fails for the cited estimator: on
    [2, 3, 2] [estimateMLE] of [src/utils/statistics.ts] returns n = 4,
    not 10, and p = (7/3) / 4; on [0, 0] it returns p = 0, which is below
    0.01. *)
Lemma estimateMLE_binomial_not_ten :
  estimateMLE Reference.math [2; 3; 2] "binomial" []
  = Normal {| method := MLE;
              estimatedParams := [("n", 4); ("p", 7 / 3 / 4)];
              logLikelihood := Some neg_infinity |}
  /\ (4 =? 10) = false
  /\ estimateMLE Reference.math [0; 0] "binomial" []
     = Normal {| method := MLE;
                 estimatedParams := [("n", 1); ("p", 0)];
                 logLikelihood := Some neg_infinity |}
  /\ (0 <? 0.01) = true.
Proof. repeat split. Qed.

(** C8, amended.  The repository declares the binomial estimate twice.
    [estimateMLE] of [src/utils/statistics.ts] estimates the trial count
    from the data, as a rough estimate: n = (largest element) + 1, and
    p = mean / n, not clamped; its log-likelihood is -Infinity.  The
    largest element is [Math.max(...data)]: for a non-empty sample without
    NaN an element of the sample that no element exceeds.  [estimateMLE]
    of [App.tsx] is the one with the fixed trial count: n = 10 and
    p = min(0.99, max(0.01, mean / 10)), which lies in [0.01, 0.99] unless
    the mean is NaN, and no log-likelihood. *)
Theorem estimateMLE_binomial_trial_count (M : MathLib) (data : list number)
    (ip : Params) :
  ((List.length data <= spread_limit)%nat ->
   estimateMLE M data "binomial" ip
   = Normal {| method := MLE;
               estimatedParams :=
                 [("n", Math_max data + 1);
                  ("p", sample_mean data / (Math_max data + 1))];
               logLikelihood := Some neg_infinity |}
   /\ (Forall Compare.not_nan data -> data <> [] ->
       In (Math_max data) data
       /\ Forall (fun x => (x <=? Math_max data) = true) data))
  /\ (forall fuel,
         App.estimateMLE M fuel data App.binomial
         = Some (Normal {| App.method := App.MLE;
                           App.estimatedParams :=
                             [("n", 10);
                              ("p", min2 0.99
                                      (max2 0.01 (sample_mean data / 10)))];
                           App.logLikelihood := None |}))
  /\ (is_nan (sample_mean data / 10) = false ->
      (0.01 <=? min2 0.99 (max2 0.01 (sample_mean data / 10))) = true
      /\ (min2 0.99 (max2 0.01 (sample_mean data / 10)) <=? 0.99) = true).
Proof.
  split; [|split].
  - intros _. split; [reflexivity | apply Math_max_spec].
  - intros fuel. reflexivity.
  - apply clamp_bounds.
Qed.

(** On [2, 3, 2]: n = 4 and p = (7/3) / 4 in [src/utils/statistics.ts],
    n = 10 and p = (7/3) / 10 in [App.tsx]. *)
Lemma estimateMLE_binomial_trial_count_witness :
  estimateMLE Reference.math [2; 3; 2] "binomial" []
  = Normal {| method := MLE;
              estimatedParams := [("n", 4); ("p", 7 / 3 / 4)];
              logLikelihood := Some neg_infinity |}
  /\ App.estimateMLE Reference.math 0 [2; 3; 2] App.binomial
     = Some (Normal {| App.method := App.MLE;
                       App.estimatedParams := [("n", 10); ("p", 7 / 3 / 10)];
                       App.logLikelihood := None |})
  /\ In (Math_max [2; 3; 2]) [2; 3; 2].
Proof.
  destruct (@estimateMLE_binomial_trial_count Reference.math [2; 3; 2] [])
    as (Hstat & Happ & _).
  destruct Hstat as [Hstat Hmax].
  - apply Nat.leb_le. vm_compute. reflexivity.
  - split; [exact Hstat|]. split; [exact (Happ O)|].
    apply Hmax; [repeat constructor | discriminate].
Defined.

(** C2.  For a non-empty sample and the normal, exponential and Poisson
    families, [estimateMLE] and [estimateMoM] return the same
    [estimatedParams]: the mean and the square root of the n-denominator
    variance, the inverse of the mean, and the mean. *)
Theorem estimateMLE_estimateMoM_same_params (M : MathLib)
    (data : list number) (distribution : string) (ip ip' : Params) :
  data <> [] ->
  In distribution ["normal"; "exponential"; "poisson"] ->
  exists r r',
    estimateMLE M data distribution ip = Normal r
    /\ estimateMoM M data distribution ip' = Normal r'
    /\ estimatedParams r = estimatedParams r'
    /\ estimatedParams r
       = (if String.eqb distribution "normal" then
            [("mean", sample_mean data);
             ("stdDev", Math_sqrt (sample_variance_n M data))]
          else if String.eqb distribution "exponential" then
            [("lambda", 1 / sample_mean data)]
          else [("lambda", sample_mean data)]).
Proof.
  intros _ Hd. unfold estimateMLE, estimateMoM.
  do 2 eexists. split; [reflexivity|]. split; [reflexivity|].
  simpl in Hd. destruct Hd as [<- | [<- | [<- | []]]]; split; reflexivity.
Qed.

(** On [1, 2, 4] with family normal. *)
Lemma estimateMLE_estimateMoM_same_params_witness :
  exists r r',
    estimateMLE Reference.math [1; 2; 4] "normal" [] = Normal r
    /\ estimateMoM Reference.math [1; 2; 4] "normal" [] = Normal r'
    /\ estimatedParams r = estimatedParams r'
    /\ estimatedParams r
       = [("mean", sample_mean [1; 2; 4]);
          ("stdDev", Math_sqrt (sample_variance_n Reference.math [1; 2; 4]))].
Proof.
  apply (@estimateMLE_estimateMoM_same_params Reference.math
           [1; 2; 4] "normal" [] []).
  - discriminate.
  - simpl. auto.
Defined.

(** C5, a call the claim says must fail: on the empty sample
    [estimateMLE] with family normal ends normally, with NaN estimates. *)
Lemma estimateMLE_empty_normal_returns :
  estimateMLE Reference.math [] "normal" []
  = Normal {| method := MLE;
              estimatedParams := [("mean", nan); ("stdDev", nan)];
              logLikelihood := Some 0 |}
  /\ ~ throws (estimateMLE Reference.math [] "normal" []) "EstimationError".
Proof.
  split; [reflexivity|]. apply Normal_not_Throw.
Qed.

(** C5, amended.  Neither estimator checks the length of the sample.  On
    the empty sample both return an [EstimationResult] and raise nothing,
    whatever the family: the mean is 0/0 = NaN, so the estimates are NaN,
    except that the uniform MLE is (min, max) = (+Infinity, -Infinity) and
    the binomial MLE has n = -Infinity. *)
Theorem estimators_on_empty_sample (M : MathLib) (ip : Params) :
  (forall distribution name,
      ~ throws (estimateMLE M [] distribution ip) name
      /\ ~ throws (estimateMoM M [] distribution ip) name)
  /\ estimateMLE M [] "normal" ip
     = Normal {| method := MLE;
                 estimatedParams := [("mean", nan); ("stdDev", nan)];
                 logLikelihood := Some 0 |}
  /\ estimateMLE M [] "exponential" ip
     = Normal {| method := MLE;
                 estimatedParams := [("lambda", nan)];
                 logLikelihood := Some 0 |}
  /\ estimateMLE M [] "poisson" ip
     = Normal {| method := MLE;
                 estimatedParams := [("lambda", nan)];
                 logLikelihood := Some neg_infinity |}
  /\ estimateMLE M [] "uniform" ip
     = Normal {| method := MLE;
                 estimatedParams := [("min", infinity); ("max", neg_infinity)];
                 logLikelihood := Some neg_infinity |}
  /\ estimateMLE M [] "binomial" ip
     = Normal {| method := MLE;
                 estimatedParams := [("n", neg_infinity); ("p", nan)];
                 logLikelihood := Some neg_infinity |}
  /\ estimateMoM M [] "normal" ip
     = Normal {| method := MoM;
                 estimatedParams := [("mean", nan); ("stdDev", nan)];
                 logLikelihood := Some 0 |}
  /\ estimateMoM M [] "exponential" ip
     = Normal {| method := MoM;
                 estimatedParams := [("lambda", nan)];
                 logLikelihood := Some 0 |}
  /\ estimateMoM M [] "poisson" ip
     = Normal {| method := MoM;
                 estimatedParams := [("lambda", nan)];
                 logLikelihood := Some neg_infinity |}
  /\ estimateMoM M [] "uniform" ip
     = Normal {| method := MoM;
                 estimatedParams := [("min", nan); ("max", nan)];
                 logLikelihood := Some neg_infinity |}
  /\ estimateMoM M [] "binomial" ip
     = Normal {| method := MoM;
                 estimatedParams := [("n", nan); ("p", nan)];
                 logLikelihood := Some neg_infinity |}.
Proof.
  split.
  - intros distribution name. split; apply Normal_not_Throw.
  - repeat split; reflexivity.
Qed.

(** On the concrete platform: the uniform method-of-moments estimate of the
    empty sample, and no error from the normal MLE on it. *)
Lemma estimators_on_empty_sample_witness :
  estimateMoM Reference.math [] "uniform" []
  = Normal {| method := MoM;
              estimatedParams := [("min", nan); ("max", nan)];
              logLikelihood := Some neg_infinity |}
  /\ ~ throws (estimateMLE Reference.math [] "normal" []) "EstimationError".
Proof.
  pose proof (estimators_on_empty_sample Reference.math []) as H.
  split.
  - apply H.
  - apply (proj1 H).
Defined.

End StatisticsClaims.

(** ** The sorted copy of the sample *)

Section Sorting.

Lemma binary_round_aux_positive (sx : bool) (mx ex : Z) (lx : location) :
  SFltb (S754_zero false) (binary_round_aux prec emax sx mx ex lx) = true ->
  sx = false.
Proof.
  unfold binary_round_aux.
  destruct (shr_fexp prec emax mx ex lx) as [mrs' e'].
  destruct (shr_fexp prec emax
              (round_nearest_even (shr_m mrs') (loc_of_shr_record mrs')) e'
              loc_Exact) as [mrs'' e''].
  destruct (shr_m mrs'') as [|m|m]; try discriminate.
  destruct (e'' <=? emax - prec)%Z; destruct sx; try discriminate; reflexivity.
Qed.

Lemma binary_normalize_positive (m e : Z) :
  SFltb (S754_zero false) (binary_normalize prec emax m e false) = true ->
  (0 < m)%Z.
Proof.
  destruct m as [|p|p]; simpl; try discriminate; [lia|].
  unfold binary_round.
  destruct (shl_align p e (fexp prec emax (Z.pos (digits2_pos p) + e)))
    as [mz ez].
  intros H. apply binary_round_aux_positive in H. discriminate.
Qed.

(** The comparator [(a, b) => a - b] never puts [a] after [b] and [b]
    after [a]. *)
Lemma comparator_antisym (x y : number) :
  gtb (y - x) 0 = true -> gtb (x - y) 0 = false.
Proof.
  unfold gtb. rewrite !ltb_spec, !sub_spec.
  change (Prim2SF 0) with (S754_zero false).
  destruct (Prim2SF x) as [s1 | s1 | | s1 m1 e1],
    (Prim2SF y) as [s2 | s2 | | s2 m2 e2];
    try (destruct s1, s2; simpl; try discriminate; reflexivity);
    try (destruct s1; simpl; try discriminate; reflexivity);
    try (destruct s2; simpl; try discriminate; reflexivity);
    try (simpl; discriminate).
  unfold SF64sub, SFsub. rewrite (Z.min_comm e2 e1).
  set (a := cond_Zopp s1 (Z.pos (fst (shl_align m1 e1 (Z.min e1 e2))))).
  set (b := cond_Zopp s2 (Z.pos (fst (shl_align m2 e2 (Z.min e1 e2))))).
  intros H. apply binary_normalize_positive in H.
  destruct (SFltb (S754_zero false)
              (binary_normalize prec emax (a - b) (Z.min e1 e2) false)) eqn:E;
    [|reflexivity].
  apply binary_normalize_positive in E. lia.
Qed.

End Sorting.

Section SortedCopy.

Import Compare.

Lemma sort_insert_perm (x : number) (l : list number) :
  Permutation (sort_insert x l) (x :: l).
Proof.
  induction l as [|y l IH]; cbn [sort_insert]; [reflexivity|].
  destruct (gtb (y - x) 0); [reflexivity|].
  rewrite IH. apply perm_swap.
Qed.

Lemma sort_insert_HdRel (x y : number) (l : list number) :
  in_order y x -> HdRel in_order y l -> HdRel in_order y (sort_insert x l).
Proof.
  intros Hyx Hl. destruct l as [|z l]; cbn [sort_insert].
  - constructor. exact Hyx.
  - destruct (gtb (z - x) 0); constructor; [exact Hyx|].
    inversion Hl; assumption.
Qed.

Lemma sort_insert_sorted (x : number) (l : list number) :
  Sorted in_order l -> Sorted in_order (sort_insert x l).
Proof.
  induction 1 as [|y l Hs IH Hd]; cbn [sort_insert].
  - repeat constructor.
  - destruct (gtb (y - x) 0) eqn:E.
    + constructor; [constructor; assumption|].
      constructor. apply comparator_antisym, E.
    + constructor; [exact IH|]. apply sort_insert_HdRel; assumption.
Qed.

Lemma sort_fold_spec (l acc : list number) :
  Sorted in_order acc ->
  Permutation (fold_left (fun acc x => sort_insert x acc) l acc) (acc ++ l)
  /\ Sorted in_order (fold_left (fun acc x => sort_insert x acc) l acc).
Proof.
  revert acc. induction l as [|x l IH]; intros acc Hacc; cbn [fold_left].
  - rewrite app_nil_r. split; [reflexivity | assumption].
  - destruct (IH (sort_insert x acc) (sort_insert_sorted x Hacc)) as [Hp Hs].
    split; [|exact Hs].
    rewrite Hp, sort_insert_perm. simpl. apply Permutation_middle.
Qed.

Lemma sort_spec (l : list number) :
  Permutation (JS.sort l) l /\ Sorted in_order (JS.sort l).
Proof. apply (@sort_fold_spec l []). constructor. Qed.

End SortedCopy.

(** ** Percentiles *)

Section Percentiles.

Import Statistics Compare Quantile.

Lemma sizes_checked : forallb size_ok (seq 1 largest_size) = true.
Proof. vm_compute. reflexivity. Qed.

Lemma size_checked (n : nat) :
  (1 <= n <= largest_size)%nat ->
  index_ok n 1 = true /\ index_ok n 2 = true /\ index_ok n 3 = true
  /\ last_index_ok n = true.
Proof.
  intros [Hlow Hhigh].
  assert (H : size_ok n = true).
  { apply (@forallb_seq size_ok 1 largest_size n sizes_checked).
    split; [exact Hlow | apply le_n_S, Hhigh]. }
  unfold size_ok in H.
  apply andb_prop in H. destruct H as [H H4].
  apply andb_prop in H. destruct H as [H H3].
  apply andb_prop in H. destruct H as [H1 H2].
  exact (conj H1 (conj H2 (conj H3 H4))).
Qed.

Lemma get_index (a : list number) (i : number) (k : Z) :
  to_Z i = Some k -> (0 <= k)%Z -> get a i = nth_error a (Z.to_nat k).
Proof.
  intros Hi Hk. unfold get. rewrite Hi.
  destruct (k <? 0)%Z eqn:E; [lia | reflexivity].
Qed.

Lemma to_Z_eqb (x : number) (k : Z) :
  match to_Z x with Some z => (z =? k)%Z | None => false end = true ->
  to_Z x = Some k.
Proof.
  destruct (to_Z x) as [z|]; [|discriminate].
  intros H. apply Z.eqb_eq in H. congruence.
Qed.

Lemma calculatePercentile_index_ok (sorted : list number) (q : Z) :
  (0 <= q)%Z -> (1 <= List.length sorted)%nat ->
  index_ok (List.length sorted) q = true ->
  calculatePercentile sorted (of_Z (25 * q)) = quarter sorted q.
Proof.
  intros Hq Hn Hok. unfold index_ok in Hok.
  unfold calculatePercentile, quarter, length_of.
  set (index := of_Z (25 * q) / 100
                * (of_Z (Z.of_nat (List.length sorted)) - 1)) in *.
  set (t := (q * (Z.of_nat (List.length sorted) - 1))%Z) in *.
  assert (Ht : (0 <= t)%Z) by (subst t; nia).
  assert (Hk : (0 <= t / 4)%Z) by (apply Z.div_pos; lia).
  destruct (t mod 4 =? 0)%Z.
  - apply andb_prop in Hok. destruct Hok as [Hint Hz].
    rewrite Hint. apply get_index; [apply to_Z_eqb, Hz | exact Hk].
  - apply andb_prop in Hok. destruct Hok as [Hok Hw].
    apply andb_prop in Hok. destruct Hok as [Hok Hc].
    apply andb_prop in Hok. destruct Hok as [Hint Hf].
    apply negb_true_iff in Hint. rewrite Hint.
    apply FloatAxioms.Leibniz.eqb_spec in Hw. rewrite Hw.
    rewrite (@get_index sorted (Math_floor index) (t / 4)
               (to_Z_eqb _ _ Hf) Hk).
    rewrite (@get_index sorted (Math_ceil index) (t / 4 + 1)
               (to_Z_eqb _ _ Hc) ltac:(lia)).
    replace (Z.to_nat (t / 4 + 1)) with (S (Z.to_nat (t / 4))) by lia.
    reflexivity.
Qed.

(** The quartiles and the extremes that [calculateSummaryStats] reads off
    a sorted sample of 1 to [largest_size] elements. *)
Lemma quartiles_of_sorted (sorted : list number) :
  (1 <= List.length sorted <= largest_size)%nat ->
  calculatePercentile sorted 25 = quarter sorted 1
  /\ calculatePercentile sorted 50 = quarter sorted 2
  /\ calculatePercentile sorted 75 = quarter sorted 3
  /\ get sorted 0 = nth_error sorted 0
  /\ get sorted (length_of sorted - 1)
     = nth_error sorted (List.length sorted - 1).
Proof.
  intros Hn. destruct (@size_checked (List.length sorted) Hn) as (H1 & H2 & H3 & H4).
  split; [|split; [|split; [|split]]].
  - apply (@calculatePercentile_index_ok sorted 1); [lia | apply Hn | exact H1].
  - apply (@calculatePercentile_index_ok sorted 2); [lia | apply Hn | exact H2].
  - apply (@calculatePercentile_index_ok sorted 3); [lia | apply Hn | exact H3].
  - reflexivity.
  - unfold last_index_ok in H4. unfold length_of.
    rewrite (@get_index sorted _ (Z.of_nat (List.length sorted) - 1)
               (to_Z_eqb _ _ H4) ltac:(lia)).
    f_equal. lia.
Qed.

End Percentiles.

(** ** Summary statistics *)

Section StatisticsSummary.

Import Statistics Compare Quantile.

(** C7, a call the claim says must fail: on the one-element sample [5]
    [calculateSummaryStats] ends normally, and its variance, standard
    deviation, skewness and kurtosis are NaN. *)
Lemma calculateSummaryStats_singleton_returns :
  calculateSummaryStats Reference.math [5]
  = Normal {| mean := 5; median := Some 5; mode := None;
              variance := nan; standardDeviation := nan;
              min := Some 5; max := Some 5; range := 0;
              quartiles := {| q1 := Some 5; q2 := Some 5; q3 := Some 5 |};
              interquartileRange := 0;
              skewness := nan; kurtosis := nan |}
  /\ ~ throws (calculateSummaryStats Reference.math [5])
         "InsufficientDataError".
Proof.
  split; [vm_compute; reflexivity|]. apply Normal_not_Throw.
Qed.

(** C7, amended.  [calculateSummaryStats] does not check the size of the
    sample: it divides by n - 1, by (n - 1)(n - 2) and by
    (n - 1)(n - 2)(n - 3) as they are, and on a sample of fewer than four
    elements it raises nothing and returns a record.  On a one-element
    sample the variance, the standard deviation, the skewness and the
    kurtosis of that record are not finite, on a two-element sample the
    skewness and the kurtosis are not, and on a three-element sample the
    kurtosis is not.  On the empty sample the four are finite: the
    variance and the standard deviation are -0, the skewness is 0 and the
    kurtosis is -0.5 (where the platform's pow(-1, 2) is 1), while the
    mean, the median, the quartiles and the range are NaN, the minimum and
    the maximum are undefined and the mode is null. *)
Theorem calculateSummaryStats_too_small_sample (M : MathLib) :
  (Math_pow M (-1) 2 = 1 ->
   calculateSummaryStats M []
   = Normal {| mean := nan; median := Some nan; mode := None;
               variance := -0; standardDeviation := -0;
               min := None; max := None; range := nan;
               quartiles :=
                 {| q1 := Some nan; q2 := Some nan; q3 := Some nan |};
               interquartileRange := nan;
               skewness := 0; kurtosis := -0.5 |})
  /\ (forall x,
         exists r,
           calculateSummaryStats M [x] = Normal r
           /\ Number_isFinite (variance r) = false
           /\ Number_isFinite (standardDeviation r) = false
           /\ Number_isFinite (skewness r) = false
           /\ Number_isFinite (kurtosis r) = false)
  /\ (forall x y,
         exists r,
           calculateSummaryStats M [x; y] = Normal r
           /\ Number_isFinite (skewness r) = false
           /\ Number_isFinite (kurtosis r) = false)
  /\ (forall x y z,
         exists r,
           calculateSummaryStats M [x; y; z] = Normal r
           /\ Number_isFinite (kurtosis r) = false).
Proof.
  split; [|split; [|split]].
  - intros Hpow. unfold calculateSummaryStats. f_equal.
    assert (Hk : calculateKurtosis M [] (reduce_sum (fun x => x) [] / length_of [])
                   (Math_sqrt
                      (reduce_sum
                         (fun x => Math_pow M
                                     (x - reduce_sum (fun x0 => x0) []
                                          / length_of []) 2) []
                       / (length_of [] - 1)))
                 = -0.5).
    { unfold calculateKurtosis.
      change (length_of [] - 1) with (-1). rewrite Hpow.
      vm_compute. reflexivity. }
    rewrite Hk. vm_compute. reflexivity.
  - intros x. eexists. split; [reflexivity|].
    cbn [variance standardDeviation skewness kurtosis].
    assert (Hv : Number_isFinite
                   (reduce_sum
                      (fun x0 => Math_pow M (x0 - reduce_sum (fun x1 => x1) [x]
                                                  / length_of [x]) 2) [x]
                    / (length_of [x] - 1)) = false).
    { change (length_of [x] - 1) with 0. apply div_zero_not_finite. }
    repeat split.
    + exact Hv.
    + apply sqrt_not_finite, Hv.
    + unfold calculateSkewness. apply mul_not_finite_l. reflexivity.
    + unfold calculateKurtosis. apply sub_not_finite_l, mul_not_finite_l.
      reflexivity.
  - intros x y. eexists. split; [reflexivity|].
    cbn [skewness kurtosis]. split.
    + unfold calculateSkewness. apply mul_not_finite_l. reflexivity.
    + unfold calculateKurtosis. apply sub_not_finite_l, mul_not_finite_l.
      reflexivity.
  - intros x y z. eexists. split; [reflexivity|].
    cbn [kurtosis]. unfold calculateKurtosis.
    apply sub_not_finite_l, mul_not_finite_l. reflexivity.
Qed.

(** On the concrete platform: the empty sample and [5]. *)
Lemma calculateSummaryStats_too_small_sample_witness :
  (exists r,
      calculateSummaryStats Reference.math [] = Normal r
      /\ variance r = -0 /\ standardDeviation r = -0
      /\ skewness r = 0 /\ kurtosis r = -0.5)
  /\ exists r,
      calculateSummaryStats Reference.math [5] = Normal r
      /\ Number_isFinite (variance r) = false
      /\ Number_isFinite (standardDeviation r) = false
      /\ Number_isFinite (skewness r) = false
      /\ Number_isFinite (kurtosis r) = false.
Proof.
  destruct (calculateSummaryStats_too_small_sample Reference.math)
    as (Hnone & Hone & _).
  split.
  - eexists. split; [apply Hnone; reflexivity|]. repeat split.
  - apply (Hone 5).
Defined.

(** The summary of a sample of 1 to [largest_size] numbers: the variance
    has the denominator n - 1, and the quartiles and the extremes are
    those of the sample sorted by the comparator. *)
Lemma calculateSummaryStats_sorted (M : MathLib) (data : list number) r :
  (1 <= List.length data <= largest_size)%nat ->
  calculateSummaryStats M data = Normal r ->
  mean r = sample_mean data
  /\ variance r
     = reduce_sum (fun x => Math_pow M (x - sample_mean data) 2) data
       / (length_of data - 1)
  /\ standardDeviation r = Math_sqrt (variance r)
  /\ exists sorted,
      Permutation sorted data
      /\ Sorted in_order sorted
      /\ q1 (quartiles r) = quarter sorted 1
      /\ median r = quarter sorted 2
      /\ q3 (quartiles r) = quarter sorted 3
      /\ min r = nth_error sorted 0
      /\ max r = nth_error sorted (List.length data - 1)
      /\ range r = ToNumber (max r) - ToNumber (min r)
      /\ interquartileRange r
         = ToNumber (q3 (quartiles r)) - ToNumber (q1 (quartiles r)).
Proof.
  intros Hn Hr. unfold calculateSummaryStats in Hr. injection Hr as <-.
  cbn [mean variance standardDeviation quartiles q1 q3 median min max range
       interquartileRange].
  split; [reflexivity|]. split; [reflexivity|]. split; [reflexivity|].
  destruct (sort_spec data) as [Hperm Hsorted].
  pose proof (Permutation_length Hperm) as Hlen.
  assert (Hn' : (1 <= List.length (JS.sort data) <= largest_size)%nat)
    by (rewrite Hlen; exact Hn).
  destruct (@quartiles_of_sorted (JS.sort data) Hn') as (H1 & H2 & H3 & Hmin & Hmax).
  assert (Hmax' : get (JS.sort data) (length_of data - 1)
                  = nth_error (JS.sort data) (List.length data - 1)).
  { unfold length_of in Hmax |- *. rewrite Hlen in Hmax. exact Hmax. }
  exists (JS.sort data).
  rewrite H1, H2, H3, Hmax'.
  repeat split; try assumption.
Qed.

(** C10.  [calculateSummaryStats] divides the sum of squared deviations by
    n - 1, whereas [estimateMLE] divides it by n.  For every sample of 1
    to 2000 numbers none of which is NaN, the median and the quartiles it
    returns are the quantiles that linear interpolation between the
    closest ranks gives on the sample sorted by the comparator (rank
    q (n - 1) / 4 for quarter q), and the minimum and the maximum are the
    first and the last element of that sorted sample.  On [1, 2, 3, 4, 5],
    in this order or shuffled, where [Math.pow] squares the deviations
    -2 .. 2 exactly, it returns mean 3, median 3, variance 2.5, standard
    deviation sqrt(2.5), which is within 0.0005 of 1.581, range 4, q1 = 2,
    q3 = 4 and interquartile range 2, where the normal [estimateMLE]
    returns the standard deviation sqrt(2); on [4, 1, 3, 2], where the
    ranks are fractional, it returns q1 = 1.75, median 2.5 and
    q3 = 3.25. *)
Theorem calculateSummaryStats_one_to_five (M : MathLib) :
  squares_exactly M [-2; -1; 0; 1; 2] ->
  (forall data r,
      Forall not_nan data ->
      (1 <= List.length data <= largest_size)%nat ->
      calculateSummaryStats M data = Normal r ->
      variance r
      = reduce_sum (fun x => Math_pow M (x - sample_mean data) 2) data
        / (length_of data - 1)
      /\ (forall ip,
             exists e,
               estimateMLE M data "normal" ip = Normal e
               /\ lookup "stdDev" (estimatedParams e)
                  = Some (Math_sqrt
                            (reduce_sum
                               (fun x => Math_pow M (x - sample_mean data) 2)
                               data
                             / length_of data)))
      /\ exists sorted,
          Permutation sorted data
          /\ Sorted in_order sorted
          /\ q1 (quartiles r) = quarter sorted 1
          /\ median r = quarter sorted 2
          /\ q3 (quartiles r) = quarter sorted 3
          /\ min r = nth_error sorted 0
          /\ max r = nth_error sorted (List.length data - 1))
  /\ (forall data,
         In data [[1; 2; 3; 4; 5]; [3; 1; 5; 2; 4]; [5; 4; 3; 2; 1]] ->
         exists r,
           calculateSummaryStats M data = Normal r
           /\ mean r = 3
           /\ median r = Some 3
           /\ variance r = 2.5
           /\ standardDeviation r = Math_sqrt 2.5
           /\ close_to (standardDeviation r) 1.581 0.0005 = true
           /\ min r = Some 1
           /\ max r = Some 5
           /\ range r = 4
           /\ q1 (quartiles r) = Some 2
           /\ q3 (quartiles r) = Some 4
           /\ interquartileRange r = 2)
  /\ (forall ip,
         exists e,
           estimateMLE M [1; 2; 3; 4; 5] "normal" ip = Normal e
           /\ lookup "mean" (estimatedParams e) = Some 3
           /\ lookup "stdDev" (estimatedParams e) = Some (Math_sqrt 2))
  /\ exists r,
      calculateSummaryStats M [4; 1; 3; 2] = Normal r
      /\ q1 (quartiles r) = Some 1.75
      /\ median r = Some 2.5
      /\ q3 (quartiles r) = Some 3.25
      /\ interquartileRange r = 1.5
      /\ min r = Some 1
      /\ max r = Some 4
      /\ range r = 3.
Proof.
  intros Hsq. split; [|split; [|split]].
  - intros data r _ Hn Hr.
    destruct (@calculateSummaryStats_sorted M data r Hn Hr)
      as (_ & Hvar & _ & sorted & Hperm & Hsorted & H1 & H2 & H3 & Hmin
          & Hmax & _).
    split; [exact Hvar|]. split.
    + intros ip. eexists. split; reflexivity.
    + exists sorted. repeat split; assumption.
  - use_squares Hsq.
    assert (Hvar : forall data,
               In data [[1; 2; 3; 4; 5]; [3; 1; 5; 2; 4]; [5; 4; 3; 2; 1]] ->
               reduce_sum
                 (fun x => Math_pow M
                             (x - reduce_sum (fun x1 => x1) data
                                  / length_of data) 2) data
               / (length_of data - 1) = 2.5).
    { intros data Hin. simpl in Hin.
      destruct Hin as [<- | [<- | [<- | []]]];
        vm_compute; rewrite_squares_keep; vm_compute; reflexivity. }
    intros data Hin. eexists. split; [reflexivity|].
    cbn [mean median variance standardDeviation range quartiles q1 q3
         interquartileRange min max].
    rewrite (Hvar data Hin). simpl in Hin.
    destruct Hin as [<- | [<- | [<- | []]]];
      repeat split; vm_compute; reflexivity.
  - intros ip. eexists. split; [reflexivity|].
    cbn [estimatedParams]. split; [vm_compute; reflexivity|].
    use_squares Hsq. vm_compute. rewrite_squares. vm_compute. reflexivity.
  - eexists. split; [reflexivity|].
    cbn [median range quartiles q1 q3 interquartileRange min max].
    repeat split; vm_compute; reflexivity.
Qed.

(** On the concrete platform. *)
Lemma calculateSummaryStats_one_to_five_witness :
  (exists r,
      calculateSummaryStats Reference.math [3; 1; 5; 2; 4] = Normal r
      /\ mean r = 3
      /\ median r = Some 3
      /\ variance r = 2.5
      /\ standardDeviation r = Math_sqrt 2.5
      /\ close_to (standardDeviation r) 1.581 0.0005 = true
      /\ min r = Some 1
      /\ max r = Some 5
      /\ range r = 4
      /\ q1 (quartiles r) = Some 2
      /\ q3 (quartiles r) = Some 4
      /\ interquartileRange r = 2)
  /\ exists r sorted,
      calculateSummaryStats Reference.math [4; 1; 3; 2] = Normal r
      /\ Permutation sorted [4; 1; 3; 2]
      /\ Sorted in_order sorted
      /\ median r = quarter sorted 2.
Proof.
  destruct (@calculateSummaryStats_one_to_five Reference.math)
    as (Hall & Hfive & _).
  - by_computation.
  - split.
    + apply Hfive. simpl. auto.
    + assert (Hnn : Forall not_nan [4; 1; 3; 2]) by (repeat constructor).
      assert (Hlen : (1 <= List.length [4; 1; 3; 2] <= largest_size)%nat)
        by (split; apply Nat.leb_le; vm_compute; reflexivity).
      eexists.
      destruct (Hall [4; 1; 3; 2] _ Hnn Hlen eq_refl)
        as (_ & _ & sorted & Hperm & Hsorted & _ & Hmed & _).
      exists sorted. split; [reflexivity|]. auto.
Defined.

End StatisticsSummary.

(** ** The uniform family on [0, 1, ..., 9] *)

Section UniformExample.

Import Statistics Examples.

(** C9.  On [0, 1, ..., 9] with family uniform, where [Math.pow] squares
    the ten deviations from the mean exactly, [estimateMLE] returns
    min = 0 and max = 9, the smallest and the largest element, and
    [estimateMoM] returns min = 4.5 - sqrt(3) sqrt(8.25) and
    max = 4.5 + sqrt(3) sqrt(8.25), computed from the mean 4.5 and the
    n-denominator variance 8.25.  These two numbers are the binary64
    values of 4.5 - sqrt(3 * 8.25) and 4.5 + sqrt(3 * 8.25), and lie within
    0.001 of -0.474 and 9.474. *)
Theorem uniform_estimates_zero_to_nine (M : MathLib) (ip : Params) :
  squares_exactly M deviations_zero_to_nine ->
  (exists r,
      estimateMLE M zero_to_nine "uniform" ip = Normal r
      /\ estimatedParams r = [("min", 0); ("max", 9)]
      /\ Math_min zero_to_nine = 0 /\ Math_max zero_to_nine = 9)
  /\ sample_mean zero_to_nine = 4.5
  /\ sample_variance_n M zero_to_nine = 8.25
  /\ (exists r,
         estimateMoM M zero_to_nine "uniform" ip = Normal r
         /\ estimatedParams r
            = [("min", 4.5 - Math_sqrt 3 * Math_sqrt 8.25);
               ("max", 4.5 + Math_sqrt 3 * Math_sqrt 8.25)])
  /\ 4.5 - Math_sqrt 3 * Math_sqrt 8.25 = 4.5 - Math_sqrt (3 * 8.25)
  /\ 4.5 + Math_sqrt 3 * Math_sqrt 8.25 = 4.5 + Math_sqrt (3 * 8.25)
  /\ close_to (4.5 - Math_sqrt 3 * Math_sqrt 8.25) (-0.474) 0.001 = true
  /\ close_to (4.5 + Math_sqrt 3 * Math_sqrt 8.25) 9.474 0.001 = true.
Proof.
  intros Hsq.
  assert (Hmean : sample_mean zero_to_nine = 4.5) by reflexivity.
  assert (Hvar : sample_variance_n M zero_to_nine = 8.25).
  { unfold deviations_zero_to_nine in Hsq. use_squares Hsq. vm_compute. rewrite_squares. vm_compute. reflexivity. }
  split; [|split; [|split; [|split]]].
  - eexists. split; [reflexivity|]. repeat split.
  - exact Hmean.
  - exact Hvar.
  - eexists. split; [reflexivity|].
    cbn [estimatedParams]. rewrite Hvar, Hmean. reflexivity.
  - repeat split; vm_compute; reflexivity.
Qed.

(** On the concrete platform. *)
Lemma uniform_estimates_zero_to_nine_witness :
  (exists r,
      estimateMLE Reference.math zero_to_nine "uniform" [] = Normal r
      /\ estimatedParams r = [("min", 0); ("max", 9)]
      /\ Math_min zero_to_nine = 0 /\ Math_max zero_to_nine = 9)
  /\ sample_mean zero_to_nine = 4.5
  /\ sample_variance_n Reference.math zero_to_nine = 8.25
  /\ (exists r,
         estimateMoM Reference.math zero_to_nine "uniform" [] = Normal r
         /\ estimatedParams r
            = [("min", 4.5 - Math_sqrt 3 * Math_sqrt 8.25);
               ("max", 4.5 + Math_sqrt 3 * Math_sqrt 8.25)])
  /\ 4.5 - Math_sqrt 3 * Math_sqrt 8.25 = 4.5 - Math_sqrt (3 * 8.25)
  /\ 4.5 + Math_sqrt 3 * Math_sqrt 8.25 = 4.5 + Math_sqrt (3 * 8.25)
  /\ close_to (4.5 - Math_sqrt 3 * Math_sqrt 8.25) (-0.474) 0.001 = true
  /\ close_to (4.5 + Math_sqrt 3 * Math_sqrt 8.25) 9.474 0.001 = true.
Proof.
  apply (@uniform_estimates_zero_to_nine Reference.math []).
  by_computation.
Defined.

End UniformExample.
(* ================================================================== *)
(** * Properties of [src/utils/distributions.ts]                       *)
(* ================================================================== *)

Section Counting.

Import Distributions.

Lemma counter_succ (c : nat) : counter (Datatypes.S c) = counter c + 1.
Proof. reflexivity. Qed.

Lemma loop_count_mono (fuel : nat) :
  forall fuel' i bound k,
    (fuel <= fuel')%nat ->
    loop_count fuel i bound = Some k -> loop_count fuel' i bound = Some k.
Proof.
  induction fuel as [|fuel IH]; intros fuel' i bound k Hle H; [discriminate|].
  destruct fuel' as [|fuel']; [lia|].
  simpl in *. destruct (i <? bound); [|assumption].
  destruct (loop_count fuel (i + 1) bound) as [k'|] eqn:E; [|discriminate].
  rewrite (IH fuel' (i + 1) bound k'); [assumption | lia | exact E].
Qed.

Lemma loop_count_below_fuel (fuel : nat) :
  forall i bound k, loop_count fuel i bound = Some k -> (k < fuel)%nat.
Proof.
  induction fuel as [|fuel IH]; intros i bound k H; [discriminate|].
  simpl in H. destruct (i <? bound).
  - destruct (loop_count fuel (i + 1) bound) as [k'|] eqn:E; [|discriminate].
    injection H as <-. apply IH in E. lia.
  - injection H as <-. lia.
Qed.

Lemma loop_count_not_above (fuel : nat) (bound : number) :
  (0 <? bound) = false -> loop_count (Datatypes.S fuel) 0 bound = Some O.
Proof. intros H. simpl. rewrite H. reflexivity. Qed.

Lemma sizes_counted_upto :
  forallb size_counted (seq 0 (Datatypes.S largest_size)) = true.
Proof. vm_compute. reflexivity. Qed.

Lemma size_counted_upto (z : nat) :
  (z <= largest_size)%nat ->
  loop_count (Datatypes.S z) 0 (of_Z (Z.of_nat z)) = Some z.
Proof.
  intros Hz.
  assert (Hin : size_counted z = true).
  { apply (@forallb_seq size_counted 0 (Datatypes.S largest_size) z
             sizes_counted_upto).
    split; [apply Nat.le_0_l | apply le_n_S, Hz]. }
  unfold size_counted in Hin.
  destruct (loop_count (Datatypes.S z) 0 (of_Z (Z.of_nat z))) as [k|];
    [|discriminate].
  apply Nat.eqb_eq in Hin. congruence.
Qed.

(** A loop from 0 to a whole number [z] of at most [largest_size] makes
    exactly [z] rounds. *)
Lemma loop_count_whole (fuel : nat) (z : Z) (k : nat) :
  (0 <= z <= Z.of_nat largest_size)%Z ->
  loop_count fuel 0 (of_Z z) = Some k -> k = Z.to_nat z.
Proof.
  intros Hz H.
  assert (Hc : loop_count (Datatypes.S (Z.to_nat z)) 0 (of_Z z)
               = Some (Z.to_nat z)).
  { rewrite <- (Z2Nat.id z) at 2 by lia. apply size_counted_upto. lia. }
  apply (@loop_count_mono _ (Nat.max fuel (Datatypes.S (Z.to_nat z)))) in H;
    [|lia].
  apply (@loop_count_mono _ (Nat.max fuel (Datatypes.S (Z.to_nat z)))) in Hc;
    [|lia].
  congruence.
Qed.

Lemma loop_count_whole_ends (fuel : nat) (z : Z) :
  (0 <= z <= Z.of_nat largest_size)%Z ->
  (Z.to_nat z < fuel)%nat ->
  loop_count fuel 0 (of_Z z) = Some (Z.to_nat z).
Proof.
  intros Hz Hf.
  apply (@loop_count_mono (Datatypes.S (Z.to_nat z))); [lia|].
  rewrite <- (Z2Nat.id z) at 2 by lia. apply size_counted_upto. lia.
Qed.

Lemma counters_whole_upto :
  forallb counter_whole (seq 0 (Datatypes.S largest_size)) = true.
Proof. vm_compute. reflexivity. Qed.

(** Up to [largest_size] increments a counter is exact. *)
Lemma counter_whole_upto (c : nat) :
  (c <= largest_size)%nat -> counter c = of_Z (Z.of_nat c).
Proof.
  intros Hc.
  assert (H : counter_whole c = true).
  { apply (@forallb_seq counter_whole 0 (Datatypes.S largest_size) c
             counters_whole_upto).
    split; [apply Nat.le_0_l | apply le_n_S, Hc]. }
  apply FloatAxioms.Leibniz.eqb_spec, H.
Qed.

End Counting.

Lemma draws_length_any (S : Type) (f : S -> number * S) (k : nat) :
  forall st, List.length (fst (Distributions.draws f k st)) = k.
Proof.
  induction k as [|k IH]; intros st; [reflexivity|].
  simpl. destruct (f st) as [u st1]. specialize (IH st1).
  destruct (Distributions.draws f k st1) as [us st2]. simpl in *. congruence.
Qed.

Section Sampler.

Import Distributions.

Variable M : MathLib.

Section Loops.

Variable S : Type.
Variable random : S -> number * S.

Lemma draws_succ (k : nat) (st : S) :
  draws random (Datatypes.S k) st
  = (fst (random st) :: fst (draws random k (snd (random st))),
     snd (draws random k (snd (random st)))).
Proof.
  simpl. destruct (random st) as [u st1]. simpl.
  destruct (draws random k st1) as [us st']. reflexivity.
Qed.

Lemma draws_length (k : nat) (st : S) :
  List.length (fst (draws random k st)) = k.
Proof. apply draws_length_any. Qed.

(** The outer loop, for a body that is a function [f] of the state where
    it returns: the loop ends exactly when its counter does, and pushes
    the results of [f] in order. *)
Lemma for_push_spec (body : S -> option (number * S)) (f : S -> number * S) :
  (forall st r, body st = Some r -> r = f st) ->
  forall fuel i sampleSize data st data' st',
    for_push fuel i sampleSize body data st = Some (data', st') ->
    exists k,
      loop_count fuel i sampleSize = Some k
      /\ data' = (data ++ fst (draws f k st))%list
      /\ st' = snd (draws f k st).
Proof.
  intros Hbody. induction fuel as [|fuel IH];
    intros i sampleSize data st data' st' H; [discriminate|].
  simpl in H |- *. destruct (i <? sampleSize).
  - destruct (body st) as [[x st1]|] eqn:Hb; [|discriminate].
    apply Hbody in Hb.
    apply IH in H. destruct H as (k & Hk & Hdata & Hst).
    exists (Datatypes.S k). rewrite Hk. split; [reflexivity|].
    simpl. rewrite <- Hb.
    destruct (draws f k st1) as [us st2]. simpl in *.
    rewrite <- app_assoc in Hdata. split; assumption.
  - injection H as <- <-. exists O. simpl. rewrite app_nil_r. auto.
Qed.

Lemma for_push_total (body : S -> option (number * S)) :
  (forall st, exists r, body st = Some r) ->
  forall fuel i sampleSize data st k,
    loop_count fuel i sampleSize = Some k ->
    exists r, for_push fuel i sampleSize body data st = Some r.
Proof.
  intros Hbody. induction fuel as [|fuel IH];
    intros i sampleSize data st k H; [discriminate|].
  simpl in H |- *. destruct (i <? sampleSize); [|eauto].
  destruct (Hbody st) as ([x st1] & ->).
  destruct (loop_count fuel (i + 1) sampleSize) as [k'|] eqn:E;
    [|discriminate].
  eapply IH, E.
Qed.

Lemma for_push_mono (body body' : S -> option (number * S)) :
  (forall st r, body st = Some r -> body' st = Some r) ->
  forall fuel fuel' i sampleSize data st r,
    (fuel <= fuel')%nat ->
    for_push fuel i sampleSize body data st = Some r ->
    for_push fuel' i sampleSize body' data st = Some r.
Proof.
  intros Hbody. induction fuel as [|fuel IH];
    intros fuel' i sampleSize data st r Hle H; [discriminate|].
  destruct fuel' as [|fuel']; [lia|].
  simpl in H |- *. destruct (i <? sampleSize); [|assumption].
  destruct (body st) as [[x st1]|] eqn:Hb; [|discriminate].
  rewrite (Hbody _ _ Hb). apply (IH fuel'); [lia | assumption].
Qed.

(** The trial loop: it ends exactly when its counter does, draws once a
    round, and counts the draws below [p]. *)
Lemma trials_spec (p n : number) :
  forall fuel j c st x st',
    trials random fuel j n p (counter c) st = Some (x, st') ->
    exists m,
      loop_count fuel j n = Some m
      /\ x = counter (c + successes p (fst (draws random m st)))
      /\ st' = snd (draws random m st).
Proof.
  induction fuel as [|fuel IH]; intros j c st x st' H; [discriminate|].
  simpl in H |- *. destruct (j <? n).
  - destruct (random st) as [u st1] eqn:Er.
    assert (H' : exists c',
               trials random fuel (j + 1) n p (counter c') st1 = Some (x, st')
               /\ (c' = if u <? p then Datatypes.S c else c)).
    { destruct (u <? p); [exists (Datatypes.S c) | exists c];
        (split; [exact H | reflexivity]). }
    destruct H' as (c' & H' & Hc').
    apply IH in H'. destruct H' as (m & Hm & Hx & Hst).
    exists (Datatypes.S m). rewrite Hm. split; [reflexivity|].
    destruct (draws random m st1) as [us st2] eqn:Ed. simpl in *.
    rewrite Er, Ed. simpl.
    split; [|assumption].
    rewrite Hx, Hc'. unfold successes. cbn [filter].
    destruct (u <? p); cbn [List.length]; f_equal; lia.
  - injection H as <- <-. exists O. simpl. unfold successes. simpl.
    rewrite Nat.add_0_r. auto.
Qed.

Lemma trials_total (p n : number) :
  forall fuel j successes st m,
    loop_count fuel j n = Some m ->
    exists r, trials random fuel j n p successes st = Some r.
Proof.
  induction fuel as [|fuel IH]; intros j s st m H; [discriminate|].
  simpl in H |- *. destruct (j <? n); [|eauto].
  destruct (random st) as [u st1].
  destruct (loop_count fuel (j + 1) n) as [m'|] eqn:E; [|discriminate].
  eapply IH, E.
Qed.

Lemma trials_mono (p n : number) :
  forall fuel fuel' j successes st r,
    (fuel <= fuel')%nat ->
    trials random fuel j n p successes st = Some r ->
    trials random fuel' j n p successes st = Some r.
Proof.
  induction fuel as [|fuel IH]; intros fuel' j s st r Hle H; [discriminate|].
  destruct fuel' as [|fuel']; [lia|].
  simpl in H |- *. destruct (j <? n); [|assumption].
  destruct (random st) as [u st1]. apply (IH fuel'); [lia | assumption].
Qed.

Lemma successes_le (p : number) (us : list number) :
  (successes p us <= List.length us)%nat.
Proof. unfold successes. apply filter_length_le. Qed.

(** The inverse-transform loop counts up by one: its result is a whole
    number not below where it started. *)
Lemma poisson_while_counter (u poissonLambda : number) :
  forall fuel c p F x,
    poisson_while fuel u poissonLambda (counter c) p F = Some x ->
    exists c', (c <= c')%nat /\ x = counter c'.
Proof.
  induction fuel as [|fuel IH]; intros c p F x H; [discriminate|].
  simpl in H. destruct (gtb u F).
  - rewrite <- counter_succ in H. apply IH in H.
    destruct H as (c' & Hc & ->). exists c'. split; [lia | reflexivity].
  - injection H as <-. exists c. split; [lia | reflexivity].
Qed.

Lemma poisson_while_mono (u poissonLambda : number) :
  forall fuel fuel' k p F x,
    (fuel <= fuel')%nat ->
    poisson_while fuel u poissonLambda k p F = Some x ->
    poisson_while fuel' u poissonLambda k p F = Some x.
Proof.
  induction fuel as [|fuel IH]; intros fuel' k p F x Hle H; [discriminate|].
  destruct fuel' as [|fuel']; [lia|].
  simpl in *. destruct (gtb u F); [|assumption].
  apply (IH fuel'); [lia | assumption].
Qed.

(** One draw a round, each mapped by [g]. *)
Lemma draws_map (g : number -> number) (k : nat) :
  forall st,
    draws (fun st => let (u, st') := random st in (g u, st')) k st
    = (map g (fst (draws random k st)), snd (draws random k st)).
Proof.
  induction k as [|k IH]; intros st; [reflexivity|].
  simpl. destruct (random st) as [u st1]. rewrite IH.
  destruct (draws random k st1) as [us st2]. reflexivity.
Qed.

(** Two draws a round, each pair mapped by [g]. *)
Lemma draws_pairs (g : number * number -> number) (k : nat) :
  forall st,
    draws (fun st => let (u1, st1) := random st in
                     let (u2, st2) := random st1 in (g (u1, u2), st2)) k st
    = (map g (pairs (fst (draws random (2 * k) st))),
       snd (draws random (2 * k) st)).
Proof.
  induction k as [|k IH]; intros st; [reflexivity|].
  replace (2 * Datatypes.S k)%nat with (Datatypes.S (Datatypes.S (2 * k)))
    by lia.
  cbn [draws]. destruct (random st) as [u1 st1].
  destruct (random st1) as [u2 st2]. rewrite IH.
  destruct (draws random (2 * k) st2) as [us st3]. reflexivity.
Qed.

Lemma generateWithCustomRandom_mono (fuel fuel' : nat) (d : DistributionType)
    (params : DistributionParams d) (sampleSize : number) (st : S) r :
  (fuel <= fuel')%nat ->
  generateWithCustomRandom M random fuel params sampleSize st = Some r ->
  generateWithCustomRandom M random fuel' params sampleSize st = Some r.
Proof.
  intros Hle. destruct params; unfold generateWithCustomRandom;
    apply for_push_mono; try exact Hle; try (intros st0 r0 H0; exact H0).
  - intros st0 r0. apply trials_mono, Hle.
  - intros st0 r0. cbv beta zeta.
    destruct (random st0) as [u sa].
    destruct (poisson_while fuel u lambda 0 (Math_exp M (- lambda))
                (Math_exp M (- lambda))) as [k|] eqn:Ek; [|discriminate].
    rewrite (@poisson_while_mono u lambda fuel fuel' _ _ _ _ Hle Ek).
    exact (fun H => H).
Qed.

(** The sampler returns a whole sample with one element for each round of
    its outer loop. *)
Lemma generateWithCustomRandom_length (fuel : nat) (d : DistributionType)
    (params : DistributionParams d) (sampleSize : number) (st : S) data st' :
  generateWithCustomRandom M random fuel params sampleSize st
  = Some (data, st') ->
  exists k,
    loop_count fuel 0 sampleSize = Some k /\ List.length data = k.
Proof.
  intros H.
  assert (Hgen : forall body,
             for_push fuel 0 sampleSize body [] st = Some (data, st') ->
             exists k,
               loop_count fuel 0 sampleSize = Some k /\ List.length data = k).
  { intros body Hb.
    apply (@for_push_spec body
             (fun st => match body st with
                        | Some r => r
                        | None => (0, st)
                        end)) in Hb.
    - destruct Hb as (k & Hk & Hdata & _). exists k. split; [assumption|].
      rewrite Hdata. simpl. apply draws_length_any.
    - intros st0 r Hr. rewrite Hr. reflexivity. }
  destruct params; unfold generateWithCustomRandom in H; eapply Hgen, H.
Qed.

(** It returns as soon as its loops end: for the normal, exponential and
    uniform families when the outer loop does, for the binomial family
    when the trial loop does too. *)
Lemma generateWithCustomRandom_total (fuel : nat) (d : DistributionType)
    (params : DistributionParams d) (sampleSize : number) (st : S) k :
  loop_count fuel 0 sampleSize = Some k ->
  match params with
  | BinomialParams n _ => exists m, loop_count fuel 0 n = Some m
  | PoissonParams _ => False
  | _ => True
  end ->
  exists data st',
    generateWithCustomRandom M random fuel params sampleSize st
    = Some (data, st').
Proof.
  intros Hk Hin.
  assert (Hgen : forall body,
             (forall st, exists r, body st = Some r) ->
             exists data st',
               for_push fuel 0 sampleSize body [] st
               = Some (data, st')).
  { intros body Hb.
    destruct (@for_push_total body Hb fuel 0 sampleSize [] st k Hk)
      as ([data st'] & E).
    eauto. }
  destruct params; unfold generateWithCustomRandom; try contradiction;
    apply Hgen; intros st0.
  - destruct (random st0) as [u1 st1]. destruct (random st1) as [u2 st2]. eauto.
  - destruct (random st0) as [u st1]. eauto.
  - destruct Hin as [m Hm]. eapply trials_total, Hm.
  - destruct (random st0) as [u st1]. eauto.
Qed.

End Loops.

End Sampler.
Section SamplerDraws.

Import Distributions.

Variable M : MathLib.
Variable S : Type.
Variable random : S -> number * S.

Lemma for_push_none (body : S -> option (number * S)) :
  (forall st, body st = None) ->
  forall fuel i sampleSize data st r,
    for_push fuel i sampleSize body data st = Some r ->
    loop_count fuel i sampleSize = Some O /\ r = (data, st).
Proof.
  intros Hbody fuel i sampleSize data st r H.
  destruct fuel as [|fuel]; [discriminate|].
  simpl in H |- *. destruct (i <? sampleSize).
  - rewrite Hbody in H. discriminate.
  - injection H as <-. auto.
Qed.

(** The outer loop over a body that draws once and may not return. *)
Lemma for_push_draw (g : number -> option number) :
  forall fuel i sampleSize data st data' st',
    for_push fuel i sampleSize
      (fun st => let (u, st') := random st in
                 match g u with
                 | Some x => Some (x, st')
                 | None => None
                 end) data st
    = Some (data', st') ->
    exists k xs,
      loop_count fuel i sampleSize = Some k
      /\ data' = (data ++ xs)%list
      /\ Forall2 (fun u x => g u = Some x) (fst (draws random k st)) xs
      /\ st' = snd (draws random k st).
Proof.
  induction fuel as [|fuel IH]; intros i sampleSize data st data' st' H;
    [discriminate|].
  simpl in H |- *. destruct (i <? sampleSize).
  - destruct (random st) as [u st1] eqn:Er.
    destruct (g u) as [x|] eqn:Eg; [|discriminate].
    apply IH in H. destruct H as (k & xs & Hk & Hdata & Hall & Hst).
    exists (Datatypes.S k), (x :: xs). rewrite Hk. split; [reflexivity|].
    rewrite <- app_assoc in Hdata. split; [exact Hdata|].
    simpl. rewrite Er.
    destruct (draws random k st1) as [us st2]. simpl in *.
    split; [|assumption]. constructor; assumption.
  - injection H as <- <-. exists O, []. simpl. rewrite app_nil_r.
    repeat split. constructor.
Qed.

Lemma draws_Forall (f : S -> number * S) (P : number -> Prop) :
  (forall st, P (fst (f st))) ->
  forall k st, Forall P (fst (draws f k st)).
Proof.
  intros Hf. induction k as [|k IH]; intros st; [constructor|].
  simpl. pose proof (Hf st) as Hx. destruct (f st) as [x st1].
  specialize (IH st1). destruct (draws f k st1) as [xs st2].
  constructor; assumption.
Qed.

Lemma generateWithCustomRandom_draws (fuel : nat) (d : DistributionType)
    (params : DistributionParams d) (sampleSize : number) (st : S) data st' :
  generateWithCustomRandom M random fuel params sampleSize st
  = Some (data, st') ->
  exists k,
    loop_count fuel 0 sampleSize = Some k
    /\ sample_of M random fuel params k st data st'.
Proof.
  intros H. destruct params; unfold generateWithCustomRandom in H;
    cbn [sample_of].
  - pose (g := fun u : number * number =>
                 mean + stdDev
                        * (Math_sqrt (-2 * Math_log M (fst u))
                           * Math_cos M (2 * Math_PI * snd u))).
    apply (@for_push_spec S _
             (fun st => let (u1, st1) := random st in
                        let (u2, st2) := random st1 in
                        (g (u1, u2), st2))) in H.
    + destruct H as (k & Hk & Hdata & Hst). exists k. split; [exact Hk|].
      rewrite draws_pairs in Hdata, Hst. simpl in Hdata, Hst. auto.
    + intros st0 r Hb. destruct (random st0) as [u1 st1].
      destruct (random st1) as [u2 st2]. injection Hb as <-. reflexivity.
  - pose (g := fun u : number => - Math_log M u / lambda).
    apply (@for_push_spec S _
             (fun st => let (u, st1) := random st in (g u, st1))) in H.
    + destruct H as (k & Hk & Hdata & Hst). exists k. split; [exact Hk|].
      rewrite draws_map in Hdata, Hst. simpl in Hdata, Hst. auto.
    + intros st0 r Hb. destruct (random st0) as [u st1].
      injection Hb as <-. reflexivity.
  - destruct (loop_count fuel 0 n) as [m|] eqn:Em.
    + apply (@for_push_spec S _
               (fun s => (counter (successes p (fst (draws random m s))),
                          snd (draws random m s)))) in H.
      * destruct H as (k & Hk & Hdata & Hst). exists k. split; [exact Hk|].
        exists m. split; [right; reflexivity|].
        simpl in Hdata. rewrite Hdata, Hst. split.
        -- destruct (draws _ k st); reflexivity.
        -- apply draws_Forall. intros s. simpl.
           exists (successes p (fst (draws random m s))).
           split; [|reflexivity].
           pose proof (successes_le p (fst (draws random m s))) as Hle.
           rewrite draws_length in Hle. exact Hle.
      * intros st0 [x st1] Hb.
        apply (@trials_spec S random p n fuel 0 O) in Hb.
        destruct Hb as (m' & Hm' & Hx & Hst). rewrite Em in Hm'.
        injection Hm' as <-. simpl in Hx. rewrite Hx, Hst. reflexivity.
    + apply for_push_none in H.
      * destruct H as [Hk Hr]. injection Hr as -> ->.
        exists O. split; [exact Hk|]. exists O.
        split; [left; reflexivity|]. split; [reflexivity | constructor].
      * intros st0.
        destruct (trials random fuel 0 n p 0 st0) as [[x st1]|] eqn:Hb;
          [|reflexivity].
        apply (@trials_spec S random p n fuel 0 O) in Hb.
        destruct Hb as (m' & Hm' & _). congruence.
  - apply (@for_push_draw
             (fun u => poisson_while fuel u lambda 0 (Math_exp M (- lambda))
                         (Math_exp M (- lambda)))) in H.
    destruct H as (k & xs & Hk & Hdata & Hall & Hst).
    exists k. split; [exact Hk|]. simpl in Hdata. subst data.
    split; [exact Hall|]. split; [|exact Hst].
    clear Hst Hk. induction Hall as [|u x us xs Hux _ IH]; constructor.
    + apply (@poisson_while_counter u lambda fuel O) in Hux.
      destruct Hux as (c & _ & ->). exists c. reflexivity.
    + exact IH.
  - pose (g := fun u : number => min + u * (max - min)).
    apply (@for_push_spec S _
             (fun st => let (u, st1) := random st in (g u, st1))) in H.
    + destruct H as (k & Hk & Hdata & Hst). exists k. split; [exact Hk|].
      rewrite draws_map in Hdata, Hst. simpl in Hdata, Hst. auto.
    + intros st0 r Hb. destruct (random st0) as [u st1].
      injection Hb as <-. reflexivity.
Qed.

End SamplerDraws.
Section SamplerClaims.

Import Distributions Examples.

Lemma generateData_sample (M : MathLib) (W : Type)
    (Math_random : W -> number * W) (fuel : nat) (d : DistributionType)
    (params : DistributionParams d) (sampleSize : number)
    (seed : option number) (w : W) r w' :
  generateData M Math_random fuel params sampleSize seed w = Some (r, w') ->
  exists data,
    r = Normal data
    /\ match seed with
       | Some s =>
           w' = w
           /\ exists s',
               generateWithCustomRandom M lcg fuel params sampleSize s
               = Some (data, s')
       | None =>
           generateWithCustomRandom M Math_random fuel params sampleSize w
           = Some (data, w')
       end.
Proof.
  intros H. unfold generateData in H. destruct seed as [s|].
  - destruct (generateWithCustomRandom M lcg fuel params sampleSize s)
      as [[data s']|] eqn:E; [|discriminate].
    injection H as <- <-. exists data. split; [reflexivity|].
    split; [reflexivity|]. exists s'. reflexivity.
  - destruct (generateWithCustomRandom M Math_random fuel params sampleSize w)
      as [[data s']|] eqn:E; [|discriminate].
    injection H as <- <-. exists data. split; reflexivity.
Qed.

Lemma draws_zeros (S : Type) (k : nat) :
  forall st : S, draws (fun s => (0, s)) k st = (repeat 0 k, st).
Proof.
  induction k as [|k IH]; intros st; [reflexivity|].
  simpl. rewrite IH. reflexivity.
Qed.

(** C3.  With a seed, [generateData] draws from the linear congruential
    generator state' = (state * 1664525 + 1013904223) mod 2^32, output
    state' / 2^32, started at the seed and private to the call.  Its
    sample therefore depends on (family, params, sampleSize, seed) only:
    it is the same whatever [Math.random] is and whatever the host's state
    is, the host's state is left as it was, a second call returns the same
    sample, and more fuel for the loops does not change it.  On integer
    states the generator agrees with the integer recurrence (shown on five
    states, the largest 2^32 - 1). *)
Theorem generateData_seeded_reproducible (M : MathLib) (W : Type)
    (Math_random Math_random' : W -> number * W) (fuel : nat)
    (d : DistributionType) (params : DistributionParams d)
    (sampleSize : number) (seed : number) (w w' : W) :
  option_map fst
    (generateData M Math_random fuel params sampleSize (Some seed) w)
  = option_map fst
      (generateData M Math_random' fuel params sampleSize (Some seed) w')
  /\ option_map fst
       (generateData M Math_random fuel params sampleSize (Some seed) w)
     = option_map (fun r => Normal (fst r))
         (generateWithCustomRandom M lcg fuel params sampleSize seed)
  /\ (forall r w1,
         generateData M Math_random fuel params sampleSize (Some seed) w
         = Some (r, w1) ->
         w1 = w
         /\ generateData M Math_random fuel params sampleSize (Some seed) w1
            = Some (r, w1))
  /\ (forall r fuel',
         (fuel <= fuel')%nat ->
         generateData M Math_random fuel params sampleSize (Some seed) w
         = Some r ->
         generateData M Math_random fuel' params sampleSize (Some seed) w
         = Some r)
  /\ (forall currentSeed,
         lcg currentSeed
         = (rem (currentSeed * 1664525 + 1013904223) 4294967296 / 4294967296,
            rem (currentSeed * 1664525 + 1013904223) 4294967296))
  /\ Forall
       (fun z =>
          lcg (of_Z z)
          = (of_Z ((z * 1664525 + 1013904223) mod 2 ^ 32) / 4294967296,
             of_Z ((z * 1664525 + 1013904223) mod 2 ^ 32)))
       [0; 1; 42; 634785765; 4294967295]%Z.
Proof.
  unfold generateData.
  repeat split.
  - destruct (generateWithCustomRandom M lcg fuel params sampleSize seed)
      as [[data s]|]; reflexivity.
  - destruct (generateWithCustomRandom M lcg fuel params sampleSize seed)
      as [[data s]|]; reflexivity.
  - destruct (generateWithCustomRandom M lcg fuel params sampleSize seed)
      as [[data s]|]; congruence.
  - destruct (generateWithCustomRandom M lcg fuel params sampleSize seed)
      as [[data s]|]; [|discriminate].
    injection H as <- <-. reflexivity.
  - intros r fuel' Hle H.
    destruct (generateWithCustomRandom M lcg fuel params sampleSize seed)
      as [[data s]|] eqn:E; [|discriminate].
    rewrite (@generateWithCustomRandom_mono M number lcg fuel fuel' d params
               sampleSize seed _ Hle E).
    exact H.
  - by_computation.
Qed.

(** The Poisson sample of seed 42, obtained with fuel 20, is the sample
    with fuel 100. *)
Lemma generateData_seeded_reproducible_witness :
  generateData Reference.math Reference.Math_random 100
    (PoissonParams 3) 8 (Some 42) tt
  = Some (Normal [2; 1; 3; 2; 2; 0; 3; 1], tt).
Proof.
  destruct (@generateData_seeded_reproducible Reference.math unit
              Reference.Math_random Reference.Math_random 20 poisson
              (PoissonParams 3) 8 42 tt tt) as (_ & _ & _ & Hmono & _).
  apply Hmono; [lia | vm_compute; reflexivity].
Defined.

(** C4, inputs on which the claim fails.  Started at the seed 634785765
    the generator first draws exactly 0, the exponential sampler takes its
    logarithm as it is, and the sample is [+Infinity], which is not a
    finite number.  Started at the seed 653637408 it first draws
    1 - 2^-32, and the uniform sampler on [10^10, 10^10 + 1) returns
    10^10 + 1, the excluded upper end, because the sum is rounded. *)
Lemma generateData_zero_draw_not_finite :
  lcg zero_draw_seed = (0, 0)
  /\ generateData Reference.math Reference.Math_random 5
       (ExponentialParams 1) 1 (Some zero_draw_seed) tt
     = Some (Normal [infinity], tt)
  /\ Number_isFinite infinity = false
  /\ fst (lcg top_draw_seed) = 1 - 1 / 4294967296
  /\ generateData Reference.math Reference.Math_random 5
       (UniformParams 10000000000 10000000001) 1 (Some top_draw_seed) tt
     = Some (Normal [10000000001], tt)
  /\ (10000000001 <? 10000000001) = false.
Proof. repeat split; vm_compute; reflexivity. Qed.

(** With lambda = 800, where [Math.exp(-800)] underflows to 0, the
    inverse-transform loop of the Poisson sampler has not ended after
    2000 steps: both [p] and [F] stay 0. *)
Lemma poisson_while_large_lambda :
  Math_exp Reference.math (-800) = 0
  /\ poisson_while 2000 0.5 800 0 0 0 = None
  /\ generateData Reference.math Reference.Math_random 2000
       (PoissonParams 800) 1 (Some 42) tt
     = None.
Proof. repeat split; vm_compute; reflexivity. Qed.

(** The loops compare numbers: a sample size of 2.5 makes three rounds,
    a sample size that is not a number makes none, and with a sample size
    of [Infinity] the loop has not ended after 2000 rounds.  The trial
    loop of the binomial sampler counts in the same way. *)
Lemma loop_count_fraction_nan_infinity :
  loop_count 10 0 2.5 = Some 3%nat
  /\ loop_count 10 0 nan = Some 0%nat
  /\ loop_count 2000 0 infinity = None
  /\ generateData Reference.math Reference.Math_random 10
       (UniformParams 0 1) 2.5 (Some 42) tt
     = Some (Normal (map (fun u => 0 + u * (1 - 0))
                       (fst (draws lcg 3 42))), tt)
  /\ generateData Reference.math Reference.Math_random 2000
       (UniformParams 0 1) infinity (Some 42) tt
     = None
  /\ generateData Reference.math Reference.Math_random 2000
       (BinomialParams infinity 0.5) 1 (Some 42) tt
     = None.
Proof. repeat split; vm_compute; reflexivity. Qed.

(** C4, amended.  For every family, parameters, sample size and uniform
    source, [generateWithCustomRandom] uses the draws as they come, with
    no resampling and no clamping.  Whenever it returns, the sample has
    one element for each round of the loop [for (i = 0; i < sampleSize;
    i++)], which is exactly sampleSize elements when sampleSize is a whole
    number from 0 to 2000, and the sample is determined by the draws in
    the order they are drawn: the j-th exponential element is
    -ln(u_j) / lambda, the j-th uniform element min + u_j (max - min), the
    j-th normal element mean + stdDev sqrt(-2 ln u_2j) cos(2 pi u_2j+1),
    the j-th binomial element the number of draws below p among the next
    trial rounds (a whole number between 0 and the number of rounds, which
    is n when n is a whole number from 0 to 2000), the j-th Poisson
    element the whole number at which the inverse-transform loop ends on
    u_j; the source is left after exactly these draws, and more fuel gives
    the same sample.  For the normal, exponential and uniform families it
    returns as soon as the loop over the sample size ends, for the
    binomial family as soon as the trial loop ends too.  A draw of exactly
    0 is passed to the logarithm: where ln 0 = -Infinity and lambda is
    finite and positive, the exponential element of that draw is
    +Infinity.  [generateData] returns the sample of
    [generateWithCustomRandom] drawn from the generator of the seed, or
    from [Math.random], unchanged. *)
Theorem generateWithCustomRandom_sample (M : MathLib) (S : Type)
    (random : S -> number * S) (fuel : nat) (d : DistributionType)
    (params : DistributionParams d) (sampleSize : number) (st : S) :
  (forall data st',
      generateWithCustomRandom M random fuel params sampleSize st
      = Some (data, st') ->
      exists k,
        loop_count fuel 0 sampleSize = Some k
        /\ List.length data = k
        /\ sample_of M random fuel params k st data st'
        /\ (forall z,
               (0 <= z <= Z.of_nat largest_size)%Z ->
               sampleSize = of_Z z -> k = Z.to_nat z)
        /\ (forall fuel',
               (fuel <= fuel')%nat ->
               generateWithCustomRandom M random fuel' params sampleSize st
               = Some (data, st')))
  /\ (forall k,
         loop_count fuel 0 sampleSize = Some k ->
         match params with
         | BinomialParams n _ => exists m, loop_count fuel 0 n = Some m
         | PoissonParams _ => False
         | _ => True
         end ->
         exists data st',
           generateWithCustomRandom M random fuel params sampleSize st
           = Some (data, st'))
  /\ (forall z m,
         (0 <= z <= Z.of_nat largest_size)%Z ->
         loop_count fuel 0 (of_Z z) = Some m -> m = Z.to_nat z)
  /\ (forall c,
         (c <= largest_size)%nat -> counter c = of_Z (Z.of_nat c))
  /\ (forall lambda data st' k j,
         generateWithCustomRandom M random fuel (ExponentialParams lambda)
           sampleSize st
         = Some (data, st') ->
         Math_log M 0 = neg_infinity ->
         Number_isFinite lambda = true ->
         (0 <? lambda) = true ->
         loop_count fuel 0 sampleSize = Some k ->
         nth_error (fst (draws random k st)) j = Some 0 ->
         nth_error data j = Some infinity)
  /\ (forall (W : Type) (Math_random : W -> number * W) seed w r w',
         generateData M Math_random fuel params sampleSize seed w
         = Some (r, w') ->
         exists data,
           r = Normal data
           /\ match seed with
              | Some s =>
                  w' = w
                  /\ exists s',
                      generateWithCustomRandom M lcg fuel params sampleSize s
                      = Some (data, s')
              | None =>
                  generateWithCustomRandom M Math_random fuel params
                    sampleSize w
                  = Some (data, w')
              end).
Proof.
  split; [|split; [|split; [|split; [|split]]]].
  - intros data st' H.
    destruct (@generateWithCustomRandom_draws M S random fuel d params sampleSize st
                data st' H)
      as (k & Hk & Hsample).
    destruct (@generateWithCustomRandom_length M S random fuel d params sampleSize st
                data st' H)
      as (k' & Hk' & Hlen).
    assert (Ek : k' = k) by congruence. rewrite Ek in Hlen.
    exists k. split; [exact Hk|]. split; [exact Hlen|].
    split; [exact Hsample|]. split.
    + intros z Hz ->. eapply loop_count_whole; eassumption.
    + intros fuel' Hle. eapply generateWithCustomRandom_mono; eassumption.
  - intros k Hk Hin. eapply generateWithCustomRandom_total; eassumption.
  - intros z m Hz Hm. eapply loop_count_whole; eassumption.
  - apply counter_whole_upto.
  - intros lambda data st' k j H Hlog Hfin Hpos Hk Hj.
    destruct (@generateWithCustomRandom_draws M S random fuel exponential
                (ExponentialParams lambda) sampleSize st data st' H)
      as (k' & Hk' & Hdata & _).
    assert (Ek : k' = k) by congruence. rewrite Ek in Hdata.
    rewrite Hdata, nth_error_map, Hj. simpl. rewrite Hlog.
    change (- neg_infinity) with infinity.
    rewrite infinity_div_positive by assumption. reflexivity.
  - intros W Math_random seed w r w'. apply generateData_sample.
Qed.

(** Two exponential draws (lambda = 1) from the generator started at the
    seed whose first draw is 0: the first element is [+Infinity]. *)
Lemma generateWithCustomRandom_sample_witness :
  exists data st',
    generateWithCustomRandom Reference.math lcg 5 (ExponentialParams 1) 2
      zero_draw_seed
    = Some (data, st')
    /\ List.length data = 2%nat
    /\ data
       = map (fun u => - Math_log Reference.math u / 1)
           (fst (draws lcg 2 zero_draw_seed))
    /\ nth_error data 0 = Some infinity.
Proof.
  destruct (@generateWithCustomRandom_sample Reference.math number lcg 5
              exponential (ExponentialParams 1) 2 zero_draw_seed)
    as (Hsample & _ & _ & _ & Hzero & _).
  assert (E : exists r,
             generateWithCustomRandom Reference.math lcg 5
               (ExponentialParams 1) 2 zero_draw_seed
             = Some r) by (eexists; vm_compute; reflexivity).
  destruct E as [[data st'] E].
  exists data, st'. split; [exact E|].
  destruct (Hsample data st' E) as (k & Hk & Hlen & Hdata & Hwhole & _).
  assert (Hk2 : k = 2%nat).
  { apply (Hwhole 2%Z); [vm_compute; split; discriminate | reflexivity]. }
  rewrite Hk2 in Hlen, Hdata, Hk.
  split; [exact Hlen|]. split; [exact (proj1 Hdata)|].
  apply (Hzero 1 data st' 2%nat 0%nat E); reflexivity.
Defined.

(** C6, inputs on which the claim fails: with min = max, with a negative
    trial count and p = 2, with a negative sample size, and with a
    negative lambda, [generateData] returns a sample and raises
    nothing. *)
Lemma generateData_accepts_invalid_parameters :
  generateData Reference.math Reference.Math_random 10
    (UniformParams 1 1) 1 (Some 0) tt
  = Some (Normal [1], tt)
  /\ generateData Reference.math Reference.Math_random 10
       (BinomialParams (-5) 2) 2 (Some 0) tt
     = Some (Normal [0; 0], tt)
  /\ generateData Reference.math Reference.Math_random 10
       (UniformParams 0 1) (-3) (Some 0) tt
     = Some (Normal [], tt)
  /\ generateData Reference.math Reference.Math_random 10
       (ExponentialParams (-1)) 1 (Some zero_draw_seed) tt
     = Some (Normal [neg_infinity], tt)
  /\ ~ (exists w',
          generateData Reference.math Reference.Math_random 10
            (UniformParams 1 1) 1 (Some 0) tt
          = Some (Throw "ValidationError", w')).
Proof.
  repeat split; try (vm_compute; reflexivity).
  intros [w' H]. vm_compute in H. discriminate.
Qed.

(** C6, amended.  [generateData] has no validation step; its loops compare
    the numbers it is given.  With a sample size that is not above 0
    (zero, negative, or not a number) it returns the empty sample, for
    every family and every parameters.  A call that returns, returns a
    whole sample: one element for each round of the loop over the sample
    size, never fewer.  For the normal, exponential and uniform families
    the call returns as soon as that loop ends, whatever the parameters
    are; for the binomial family as soon as the trial loop ends too: in
    particular for every whole sample size from 0 to 2000 it returns
    exactly that many elements.  With a trial count n that is not above 0
    the binomial sample consists of zeros. *)
Theorem generateData_validates_nothing (M : MathLib) (W : Type)
    (Math_random : W -> number * W) (fuel : nat) (d : DistributionType)
    (params : DistributionParams d) (sampleSize : number)
    (seed : option number) (w : W) :
  ((0 <? sampleSize) = false ->
   generateData M Math_random (Datatypes.S fuel) params sampleSize seed w
   = Some (Normal [], w))
  /\ (forall r w',
         generateData M Math_random fuel params sampleSize seed w
         = Some (r, w') ->
         exists data k,
           r = Normal data
           /\ loop_count fuel 0 sampleSize = Some k
           /\ List.length data = k)
  /\ (forall k,
         loop_count fuel 0 sampleSize = Some k ->
         match params with
         | BinomialParams n _ => exists m, loop_count fuel 0 n = Some m
         | PoissonParams _ => False
         | _ => True
         end ->
         exists data w',
           generateData M Math_random fuel params sampleSize seed w
           = Some (Normal data, w')
           /\ List.length data = k)
  /\ (forall z,
         (0 <= z <= Z.of_nat largest_size)%Z ->
         (Z.to_nat z < fuel)%nat ->
         sampleSize = of_Z z ->
         match params with
         | BinomialParams n _ => exists m, loop_count fuel 0 n = Some m
         | PoissonParams _ => False
         | _ => True
         end ->
         exists data w',
           generateData M Math_random fuel params sampleSize seed w
           = Some (Normal data, w')
           /\ List.length data = Z.to_nat z)
  /\ match params with
     | BinomialParams n _ =>
         (0 <? n) = false ->
         forall r w',
           generateData M Math_random fuel params sampleSize seed w
           = Some (r, w') ->
           exists k,
             loop_count fuel 0 sampleSize = Some k
             /\ r = Normal (repeat 0 k)
     | _ => True
     end.
Proof.
  assert (Hreturns : forall k,
             loop_count fuel 0 sampleSize = Some k ->
             match params with
             | BinomialParams n _ => exists m, loop_count fuel 0 n = Some m
             | PoissonParams _ => False
             | _ => True
             end ->
             exists data w',
               generateData M Math_random fuel params sampleSize seed w
               = Some (Normal data, w')
               /\ List.length data = k).
  { intros k Hk Hin. unfold generateData. destruct seed as [s|].
    - destruct (@generateWithCustomRandom_total M number lcg fuel d params
                  sampleSize s k Hk Hin) as (data & s' & E).
      rewrite E. exists data, w. split; [reflexivity|].
      destruct (@generateWithCustomRandom_length M number lcg fuel d params
                  sampleSize s _ _ E)
        as (k' & Hk' & Hlen).
      congruence.
    - destruct (@generateWithCustomRandom_total M W Math_random fuel d params
                  sampleSize w k Hk Hin) as (data & w' & E).
      rewrite E. exists data, w'. split; [reflexivity|].
      destruct (@generateWithCustomRandom_length M W Math_random fuel d params
                  sampleSize w _ _ E) as (k' & Hk' & Hlen).
      congruence. }
  split; [|split; [|split; [|split]]].
  - intros Hsize. unfold generateData, generateWithCustomRandom.
    destruct seed as [s|]; destruct params; simpl; rewrite Hsize;
      reflexivity.
  - intros r w' H. apply generateData_sample in H.
    destruct H as (data & -> & H). exists data.
    destruct seed as [s|].
    + destruct H as (_ & s' & E).
      destruct (@generateWithCustomRandom_length M number lcg fuel d params
                  sampleSize s _ _ E)
        as (k & Hk & Hlen).
      exists k. auto.
    + destruct (@generateWithCustomRandom_length M W Math_random fuel d params
                  sampleSize w _ _ H) as (k & Hk & Hlen).
      exists k. auto.
  - exact Hreturns.
  - intros z Hz Hfuel -> Hin. apply Hreturns; [|exact Hin].
    apply loop_count_whole_ends; assumption.
  - destruct params; try exact I.
    intros Hn r w' H. apply generateData_sample in H.
    destruct H as (data & -> & H).
    assert (Hgen : forall (S : Type) (random : S -> number * S) st st',
               generateWithCustomRandom M random fuel (BinomialParams n p)
                 sampleSize st
               = Some (data, st') ->
               exists k,
                 loop_count fuel 0 sampleSize = Some k
                 /\ Normal data = Normal (repeat 0 k)).
    { intros S random st st' E.
      destruct (@generateWithCustomRandom_draws M S random fuel binomial
                  (BinomialParams n p) sampleSize st data st' E) as (k & Hk & m & Hm & Hdata & _).
      exists k. split; [exact Hk|]. f_equal.
      destruct Hm as [-> | Hm].
      - simpl in Hdata. injection Hdata as -> _. reflexivity.
      - destruct fuel as [|fuel']; [discriminate|].
        simpl in Hm. rewrite Hn in Hm. injection Hm as <-.
        change (draws _ k st) with (draws (fun s : S => (0, s)) k st)
          in Hdata.
        rewrite draws_zeros in Hdata. injection Hdata as -> _.
        reflexivity. }
    destruct seed as [s|].
    + destruct H as (_ & s' & E). eapply Hgen, E.
    + eapply Hgen, H.
Qed.

(** Invalid in three ways at once: a negative sample size, min above max,
    no seed: the empty sample. *)
Lemma generateData_validates_nothing_witness :
  generateData Reference.math Reference.Math_random 1
    (UniformParams 1 0) (-3) None tt
  = Some (Normal [], tt).
Proof.
  destruct (@generateData_validates_nothing Reference.math unit
              Reference.Math_random 0 uniform (UniformParams 1 0) (-3) None tt)
    as (Hempty & _).
  apply Hempty. reflexivity.
Defined.

End SamplerClaims.

(* ================================================================== *)
(** * Properties of the estimator of [App.tsx]                         *)
(* ================================================================== *)

Section AppEstimator.

Import App Examples.

Lemma factorial_loop_mono (fuel fuel' : nat) :
  (fuel <= fuel')%nat ->
  forall i k result v,
    factorial_loop fuel i k result = Some v ->
    factorial_loop fuel' i k result = Some v.
Proof.
  revert fuel'. induction fuel as [|fuel IH]; intros fuel' Hle i k result v H;
    [discriminate|].
  destruct fuel' as [|fuel']; [lia|].
  simpl in *. destruct (i <=? k); [|assumption].
  apply IH; [lia | assumption].
Qed.

Lemma factorial_mono (fuel fuel' : nat) (k v : number) :
  (fuel <= fuel')%nat ->
  factorial fuel k = Some v -> factorial fuel' k = Some v.
Proof.
  unfold factorial. intros Hle.
  destruct (k <? 0); [exact (fun H => H)|].
  destruct (k =? 0); [exact (fun H => H)|].
  apply factorial_loop_mono, Hle.
Qed.

(** Up to 170, the largest count whose factorial is finite, the loop of
    [factorial] ends within 170 steps with the product 2 * 3 * ... * k. *)
Lemma factorial_upto_170 :
  Forall (fun k => factorial 170 (Spec.of_nat k) = Some (Spec.factorial k))
    (seq 0 171).
Proof.
  let l := eval vm_compute in (seq 0 171) in change (seq 0 171) with l.
  repeat (apply Forall_cons; [vm_compute; reflexivity|]).
  apply Forall_nil.
Qed.

Lemma factorial_small (fuel k : nat) :
  (k <= 170)%nat -> (170 <= fuel)%nat ->
  factorial fuel (Spec.of_nat k) = Some (Spec.factorial k).
Proof.
  intros Hk Hfuel. apply factorial_mono with (fuel := 170%nat); [exact Hfuel|].
  pose proof factorial_upto_170 as H. rewrite Forall_forall in H.
  apply H, in_seq. lia.
Qed.

Lemma poisson_logLikelihood_spec (M : MathLib) (fuel : nat)
    (lambdaPois : number) (ks : list nat) :
  Forall (fun k => (k <= 170)%nat) ks -> (170 <= fuel)%nat ->
  forall acc,
    poisson_logLikelihood M fuel lambdaPois (map Spec.of_nat ks) acc
    = Some (fold_left
              (fun acc k =>
                 acc + Spec.of_nat k * Math_log M lambdaPois - lambdaPois
                 - Math_log M (Spec.factorial k))
              ks acc).
Proof.
  intros Hks Hfuel. induction Hks as [|k ks Hk _ IH]; intros acc.
  - reflexivity.
  - cbn [map poisson_logLikelihood fold_left].
    rewrite (factorial_small Hk Hfuel). apply IH.
Qed.

End AppEstimator.

Section AppClaims.

Import App Examples.

(** X1.  The estimator of [App.tsx] has the Poisson log-likelihood that
    [src/utils/statistics.ts] lacks.  For a sample of integer counts, none
    above 170, and fuel for 170 steps of the factorial loop,
    [estimateMLE] returns lambda = mean and the log-likelihood
    sum of k ln(lambda) - lambda - ln(k!), accumulated from the left, with
    k! the product 2 * 3 * ... * k and 0! = 1. *)
Theorem App_estimateMLE_poisson (M : MathLib) (fuel : nat) (ks : list nat) :
  Forall (fun k => (k <= 170)%nat) ks ->
  (170 <= fuel)%nat ->
  let data := map Spec.of_nat ks in
  let lambda := reduce_sum (fun b => b) data / length_of data in
  estimateMLE M fuel data poisson
  = Some (Normal {| method := MLE;
                    estimatedParams := [("lambda", lambda)];
                    logLikelihood :=
                      Some (Spec.poisson_logLikelihood M lambda ks) |}).
Proof.
  intros Hks Hfuel data lambda. unfold estimateMLE.
  fold data. fold lambda. unfold data at 1.
  rewrite (poisson_logLikelihood_spec M lambda Hks Hfuel). reflexivity.
Qed.

(** On [2, 3, 2]: lambda = 7/3 and a log-likelihood of about -4.2469688. *)
Lemma App_estimateMLE_poisson_witness :
  estimateMLE Reference.math 170 [2; 3; 2] poisson
  = Some (Normal {| method := MLE;
                    estimatedParams := [("lambda", 7 / 3)];
                    logLikelihood :=
                      Some (Spec.poisson_logLikelihood Reference.math (7 / 3)
                              two_three_two) |})
  /\ close_to (Spec.poisson_logLikelihood Reference.math (7 / 3) two_three_two)
       (-4.2469688) 0.0000001 = true.
Proof.
  split.
  - apply (@App_estimateMLE_poisson Reference.math 170 two_three_two).
    + repeat constructor.
    + constructor.
  - vm_compute. reflexivity.
Defined.

(** X2.  The estimator of [App.tsx] fixes the binomial trial count: for every
    sample [estimateMLE] returns n = 10 and
    p = min(0.99, max(0.01, mean / 10)), and no log-likelihood.  On
    [2, 3, 2] p is (7/3)/10; on [0, 0] it is 0.01; on [10, 10] it is
    0.99. *)
Theorem App_estimateMLE_binomial (M : MathLib) (fuel : nat) :
  (forall data,
      estimateMLE M fuel data binomial
      = Some (Normal {| method := MLE;
                        estimatedParams :=
                          [("n", 10);
                           ("p", min2 0.99
                                   (max2 0.01
                                      (reduce_sum (fun b => b) data
                                       / length_of data / 10)))];
                        logLikelihood := None |}))
  /\ (forall data,
         let mean := reduce_sum (fun b => b) data / length_of data in
         is_nan (mean / 10) = false ->
         (0.01 <=? min2 0.99 (max2 0.01 (mean / 10))) = true
         /\ (min2 0.99 (max2 0.01 (mean / 10)) <=? 0.99) = true)
  /\ estimateMLE M fuel [2; 3; 2] binomial
     = Some (Normal {| method := MLE;
                       estimatedParams := [("n", 10); ("p", 7 / 3 / 10)];
                       logLikelihood := None |})
  /\ estimateMLE M fuel [0; 0] binomial
     = Some (Normal {| method := MLE;
                       estimatedParams := [("n", 10); ("p", 0.01)];
                       logLikelihood := None |})
  /\ estimateMLE M fuel [10; 10] binomial
     = Some (Normal {| method := MLE;
                       estimatedParams := [("n", 10); ("p", 0.99)];
                       logLikelihood := None |}).
Proof.
  split; [reflexivity|]. split; [|repeat split].
  intros data mean Hnan. apply clamp_bounds, Hnan.
Qed.

(** On [2, 3, 2]. *)
Lemma App_estimateMLE_binomial_witness :
  (0.01 <=? min2 0.99 (max2 0.01 (7 / 3 / 10))) = true
  /\ (min2 0.99 (max2 0.01 (7 / 3 / 10)) <=? 0.99) = true.
Proof.
  destruct (App_estimateMLE_binomial Reference.math 0) as (_ & H & _).
  apply (H [2; 3; 2]). reflexivity.
Defined.

(** X3.  On [0, 1, ..., 9] with family uniform, where [Math.pow] squares the
    ten elements and the mean exactly, the estimator of [App.tsx] returns
    min = 0, max = 9 and the log-likelihood -10 ln(9) by maximum
    likelihood, and min = 4.5 - sqrt(3 * 8.25), max = 4.5 + sqrt(3 * 8.25)
    by the method of moments. *)
Theorem App_uniform_estimates_zero_to_nine (M : MathLib) (fuel : nat) :
  squares_exactly M moments_zero_to_nine ->
  estimateMLE M fuel zero_to_nine uniform
  = Some (Normal {| method := MLE;
                    estimatedParams := [("min", 0); ("max", 9)];
                    logLikelihood := Some (-10 * Math_log M 9) |})
  /\ estimateMoM M zero_to_nine uniform
     = Normal {| method := MoM;
                 estimatedParams :=
                   [("min", 4.5 - Math_sqrt (3 * 8.25));
                    ("max", 4.5 + Math_sqrt (3 * 8.25))];
                 logLikelihood := None |}.
Proof.
  intros Hsq. split; [reflexivity|].
  unfold moments_zero_to_nine in Hsq. use_squares Hsq.
  vm_compute. rewrite_squares. vm_compute. reflexivity.
Qed.

(** On the concrete platform. *)
Lemma App_uniform_estimates_zero_to_nine_witness :
  estimateMLE Reference.math 0 zero_to_nine uniform
  = Some (Normal {| method := MLE;
                    estimatedParams := [("min", 0); ("max", 9)];
                    logLikelihood := Some (-10 * Math_log Reference.math 9) |})
  /\ estimateMoM Reference.math zero_to_nine uniform
     = Normal {| method := MoM;
                 estimatedParams :=
                   [("min", 4.5 - Math_sqrt (3 * 8.25));
                    ("max", 4.5 + Math_sqrt (3 * 8.25))];
                 logLikelihood := None |}.
Proof.
  apply (@App_uniform_estimates_zero_to_nine Reference.math 0).
  by_computation.
Defined.



End AppClaims.

(** ** Further properties of the estimators *)

Section EstimatorBounds.

Import Compare.

(** X5.  The uniform maximum-likelihood estimate brackets the sample.  For
    a non-empty sample without NaN, short enough to be spread into the
    arguments of a call, [estimateMLE] of [src/utils/statistics.ts] and of
    [App.tsx] return as min and max two elements of the sample with
    min <= x <= max for every element x; as soon as one element is NaN
    both are NaN; on the empty sample they are +Infinity and -Infinity. *)
Theorem uniform_estimate_brackets_sample (M : MathLib) (data : list number) :
  (List.length data <= spread_limit)%nat ->
  (forall ip,
      Statistics.estimateMLE M data "uniform" ip
      = Normal {| Statistics.method := Statistics.MLE;
                  Statistics.estimatedParams :=
                    [("min", Math_min data); ("max", Math_max data)];
                  Statistics.logLikelihood := Some neg_infinity |})
  /\ (forall fuel,
         exists ll,
           App.estimateMLE M fuel data App.uniform
           = Some (Normal {| App.method := App.MLE;
                             App.estimatedParams :=
                               [("min", Math_min data); ("max", Math_max data)];
                             App.logLikelihood := Some ll |}))
  /\ (Forall not_nan data -> data <> [] ->
      In (Math_min data) data /\ In (Math_max data) data
      /\ Forall (fun x => (Math_min data <=? x) = true
                          /\ (x <=? Math_max data) = true) data)
  /\ (Exists (fun x => is_nan x = true) data ->
      Math_min data = nan /\ Math_max data = nan)
  /\ (data = [] -> Math_min data = infinity /\ Math_max data = neg_infinity).
Proof.
  intros _.
  split; [reflexivity|]. split; [intros fuel; eexists; reflexivity|].
  split; [|split].
  - intros Hl Hne.
    destruct (@Math_min_spec data Hl Hne) as [Hin1 Hall1].
    destruct (@Math_max_spec data Hl Hne) as [Hin2 Hall2].
    repeat split; try assumption.
    rewrite Forall_forall in *. intros x Hx. split; auto.
  - intros Hnan. split; [apply Math_min_nan | apply Math_max_nan]; assumption.
  - intros ->. split; reflexivity.
Qed.

(** On [3, 1, 2]. *)
Lemma uniform_estimate_brackets_sample_witness :
  In (Math_min [3; 1; 2]) [3; 1; 2] /\ In (Math_max [3; 1; 2]) [3; 1; 2]
  /\ Forall (fun x => (Math_min [3; 1; 2] <=? x) = true
                      /\ (x <=? Math_max [3; 1; 2]) = true) [3; 1; 2].
Proof.
  destruct (@uniform_estimate_brackets_sample Reference.math [3; 1; 2])
    as (_ & _ & H & _).
  - apply Nat.leb_le. vm_compute. reflexivity.
  - apply H.
    + repeat constructor.
    + discriminate.
Defined.


End EstimatorBounds.

(** ** The binomial method-of-moments estimate *)

Section BinomialMoM.

Import Statistics.

Lemma clamp_mom_bounds (p : number) :
  is_nan p = false ->
  (0.01 <=? max2 0.01 (min2 0.99 p)) = true
  /\ (max2 0.01 (min2 0.99 p) <=? 0.99) = true.
Proof.
  intros Hp.
  destruct (@min2_spec 0.99 p eq_refl Hp) as (Hcase & Hle & _).
  assert (Hy : is_nan (min2 0.99 p) = false)
    by (destruct Hcase as [-> | ->]; [reflexivity | assumption]).
  destruct (@max2_spec 0.01 (min2 0.99 p) eq_refl Hy) as (Hcase' & Hlow & _).
  split; [exact Hlow|].
  destruct Hcase' as [-> | ->]; [reflexivity | exact Hle].
Qed.

(** X6.  [estimateMoM] with family binomial returns
    p = max(0.01, min(0.99, 1 - variance / mean)), which lies in
    [0.01, 0.99] unless 1 - variance / mean is NaN (then p is NaN), and
    n = round(mean / (1 - variance / mean)), computed from the unclamped
    value. *)
Theorem estimateMoM_binomial_clamps_p (M : MathLib) (data : list number)
    (ip : Params) :
  let raw := 1 - sample_variance_n M data / sample_mean data in
  estimateMoM M data "binomial" ip
  = Normal {| method := MoM;
              estimatedParams :=
                [("n", Math_round (sample_mean data / raw));
                 ("p", max2 0.01 (min2 0.99 raw))];
              logLikelihood := Some neg_infinity |}
  /\ (is_nan raw = false ->
      (0.01 <=? max2 0.01 (min2 0.99 raw)) = true
      /\ (max2 0.01 (min2 0.99 raw) <=? 0.99) = true)
  /\ (is_nan raw = true -> max2 0.01 (min2 0.99 raw) = nan).
Proof.
  intros raw. split; [reflexivity|]. split.
  - apply clamp_mom_bounds.
  - intros H. rewrite (@is_nan_eq raw H), min2_nan_r, max2_nan_r. reflexivity.
Qed.

(** On [0, 4, 4], where the variance exceeds the mean: the unclamped value
    is negative, p is 0.01 and n is negative. *)
Lemma estimateMoM_binomial_clamps_p_witness :
  estimateMoM Reference.math [0; 4; 4] "binomial" []
  = Normal {| method := MoM;
              estimatedParams := [("n", -8); ("p", 0.01)];
              logLikelihood := Some neg_infinity |}
  /\ (0.01 <=? 0.01) = true /\ (0.01 <=? 0.99) = true.
Proof.
  destruct (estimateMoM_binomial_clamps_p Reference.math [0; 4; 4] [])
    as (E & Hbounds & _).
  split; [exact E|]. apply Hbounds. vm_compute. reflexivity.
Defined.

End BinomialMoM.

(** ** The sampler of the component *)

Section ComponentSampler.

Import Distributions.

Variable M : MathLib.
Variable W : Type.
Variable Math_random : W -> number * W.

Lemma binomial_for_trials (fuel : nat) :
  forall j n p successes w,
    DistributionGenerator.binomial_for Math_random fuel j n p successes w
    = trials Math_random fuel j n p successes w.
Proof.
  induction fuel as [|fuel IH]; intros j n p s w; [reflexivity|].
  simpl. destruct (j <? n); [|reflexivity].
  destruct (Math_random w) as [u w']. apply IH.
Qed.

Lemma component_poisson_while (fuel : nat) :
  forall u poissonLambda k prob F,
    DistributionGenerator.poisson_while fuel u poissonLambda k prob F
    = poisson_while fuel u poissonLambda k prob F.
Proof.
  induction fuel as [|fuel IH]; intros u l k prob F; [reflexivity|].
  simpl. destruct (gtb u F); [|reflexivity]. apply IH.
Qed.

Lemma generateData_for_for_push (inner : nat) (d : DistributionType)
    (params : DistributionParams d) (body : W -> option (number * W)) :
  (forall w, DistributionGenerator.switch M Math_random inner params w
             = body w) ->
  forall fuel i sampleSize data w,
    DistributionGenerator.generateData_for M Math_random inner fuel params
      i sampleSize data w
    = for_push fuel i sampleSize body data w.
Proof.
  intros Hbody. induction fuel as [|fuel IH]; intros i sampleSize data w;
    [reflexivity|].
  simpl. destruct (i <? sampleSize); [|reflexivity].
  rewrite Hbody. destruct (body w) as [[x w']|]; [apply IH | reflexivity].
Qed.

(** X7.  The sampler that [DistributionGenerator.tsx] declares for itself,
    with the [switch] inside the loop, returns the sample and leaves
    [Math.random] in the state that [generateData] of
    [src/utils/distributions.ts] does when it is called without a seed,
    for every family, parameters and sample size; and both have not
    returned yet together. *)
Theorem component_generateData_agrees (fuel : nat) (d : DistributionType)
    (params : DistributionParams d) (sampleSize : number) (w : W) :
  DistributionGenerator.generateData M Math_random fuel params sampleSize w
  = generateWithCustomRandom M Math_random fuel params sampleSize w
  /\ generateData M Math_random fuel params sampleSize None w
     = option_map (fun r => (Normal (fst r), snd r))
         (DistributionGenerator.generateData M Math_random fuel params
            sampleSize w).
Proof.
  assert (H : DistributionGenerator.generateData M Math_random fuel params
                sampleSize w
              = generateWithCustomRandom M Math_random fuel params
                  sampleSize w).
  { unfold DistributionGenerator.generateData.
    destruct params; unfold generateWithCustomRandom;
      apply generateData_for_for_push; intros w0;
      cbn [DistributionGenerator.switch].
    - reflexivity.
    - reflexivity.
    - apply binomial_for_trials.
    - cbv zeta. destruct (Math_random w0) as [u w'].
      rewrite component_poisson_while. reflexivity.
    - reflexivity. }
  split; [exact H|].
  rewrite H. unfold generateData.
  destruct (generateWithCustomRandom M Math_random fuel params sampleSize w)
    as [[data w']|]; reflexivity.
Qed.

End ComponentSampler.

(** ** The histogram *)

Section Histogram.

Import DataVisualization Compare.

Lemma sub_self (v : number) : Number_isFinite v = true -> v - v = 0.
Proof.
  intros H. apply Prim2SF_inj. rewrite sub_spec.
  unfold Number_isFinite in H.
  destruct (Prim2SF v) as [s | s | | s m e]; try discriminate.
  - destruct s; reflexivity.
  - unfold SF64sub, SFsub. rewrite Z.sub_diag. reflexivity.
Qed.

Lemma finite_not_nan (v : number) : Number_isFinite v = true -> not_nan v.
Proof.
  intros H. apply is_nan_false. unfold Number_isFinite in H.
  destruct (Prim2SF v); try discriminate.
Qed.

Lemma min2_same (v : number) : not_nan v -> min2 v v = v.
Proof.
  intros H. unfold min2. rewrite H. cbn [orb]. rewrite ltb_irrefl.
  destruct (sign_bit v); reflexivity.
Qed.

Lemma max2_same (v : number) : not_nan v -> max2 v v = v.
Proof.
  intros H. unfold max2. rewrite H. cbn [orb]. rewrite ltb_irrefl.
  destruct (sign_bit v); reflexivity.
Qed.

Lemma Math_min_repeat (v : number) (n : nat) :
  not_nan v -> Math_min (repeat v (S n)) = v.
Proof.
  intros H. unfold Math_min. cbn [repeat fold_left].
  rewrite (min2_infinity_l H).
  induction n as [|n IH]; [reflexivity|].
  cbn [repeat fold_left]. rewrite (min2_same H). exact IH.
Qed.

Lemma Math_max_repeat (v : number) (n : nat) :
  not_nan v -> Math_max (repeat v (S n)) = v.
Proof.
  intros H. unfold Math_max. cbn [repeat fold_left].
  rewrite (max2_neg_infinity_l H).
  induction n as [|n IH]; [reflexivity|].
  cbn [repeat fold_left]. rewrite (max2_same H). exact IH.
Qed.

Lemma zero_widths :
  forallb zero_width (seq 1 DataVisualization.largest_size) = true.
Proof. vm_compute. reflexivity. Qed.

Lemma zero_width_upto (n : nat) :
  (1 <= n <= DataVisualization.largest_size)%nat ->
  0 / numBins_of (of_Z (Z.of_nat n)) = 0.
Proof.
  intros [Hlow Hhigh].
  apply FloatAxioms.Leibniz.eqb_spec.
  apply (@forallb_seq zero_width 1 DataVisualization.largest_size n
           zero_widths).
  split; [exact Hlow | apply le_n_S, Hhigh].
Qed.

Lemma fold_left_thrown (A B : Type) (f : completion A -> B -> completion A)
    (name : string) (l : list B) :
  (forall b, f (Throw name) b = Throw name) ->
  fold_left f l (Throw name) = Throw name.
Proof.
  intros Hf. induction l as [|b l IH]; [reflexivity|].
  simpl. rewrite Hf. exact IH.
Qed.

(** X8.  [histogramData] divides the spread of the sample, max - min, into
    the bins: on a sample of 1 to 2000 finite numbers that are all equal
    the width of the bins is 0, the index of the bin of the first value is
    0 / 0 = NaN, and the update [bins[binIndex].count++] of a bin that
    does not exist raises TypeError.  On [1, 2, 3, 4] there are two bins,
    [1, 2.5) and [2.5, 4], and each counts two values. *)
Theorem histogramData_constant_sample (v : number) (n : nat) :
  Number_isFinite v = true ->
  (1 <= n <= DataVisualization.largest_size)%nat ->
  histogramData (repeat v n) = Throw "TypeError"
  /\ exists bins,
      histogramData [1; 2; 3; 4] = Normal bins
      /\ map binStart bins = [1; 2.5]
      /\ map binEnd bins = [2.5; 4]
      /\ map count bins = [2; 2].
Proof.
  intros Hv Hn. split.
  - pose proof (finite_not_nan v Hv) as Hnan.
    destruct n as [|n]; [lia|].
    unfold histogramData.
    rewrite repeat_length, (Math_min_repeat n Hnan), (Math_max_repeat n Hnan).
    rewrite (sub_self v Hv), (zero_width_upto Hn).
    cbn [repeat fold_left]. rewrite (sub_self v Hv).
    change (0 / 0) with nan. change (Math_floor nan) with nan.
    rewrite min2_nan_l.
    change (get_bin _ nan) with (@None (nat * Bin)). cbv beta iota.
    rewrite fold_left_thrown; [reflexivity|]. intros b. reflexivity.
  - eexists. split; [vm_compute; reflexivity|].
    repeat split.
Qed.

(** On [5, 5, 5]. *)
Lemma histogramData_constant_sample_witness :
  histogramData [5; 5; 5] = Throw "TypeError".
Proof.
  destruct (@histogramData_constant_sample 5 3) as [H _].
  - reflexivity.
  - split; apply Nat.leb_le; vm_compute; reflexivity.
  - exact H.
Defined.

End Histogram.
